(** * The validated fetch-and-decode pipeline of osu-pp-calculator

    A shallow embedding of [parseBeatmap] and [parseScore] (with their
    helpers [parseBeatmapById], [parseCustomBeatmap], [parseBeatmapData],
    [parseCustomScore] and [parseScoreData]) and the properties of the
    pipeline that its specification states.

    The pipeline is orchestration code: it owns the order in which the
    downloader, the file system, the digest and the decoders are called, the
    guards between those calls and the errors it throws itself.  The
    collaborators are taken as an interface ([Collaborators]); every call of
    one is recorded in a trace, so that "the decoder is never invoked" and
    "no download is attempted" are statements about that trace. *)

From Stdlib Require Import ZArith String Ascii List Bool.
From Corelib Require Import SpecFloat.
From stdpp Require Import base strings gmap list pretty.

Open Scope string_scope.
Open Scope list_scope.
Open Scope Z_scope.

(** ** ECMAScript values *)

(** Numbers are IEEE 754 doubles.  [Int z] is the Number value of the integer
    [z] and [Frac m e] the Number value of [m / 2^e]: the double nearest to
    it, ties to even.  Below 2^53 in magnitude every integer is its own
    Number value. *)
Inductive number :=
| NaN
| Int (z : Z)
| Frac (m : Z) (e : positive)
| Infinity (negative : bool)
| NegZero.

(** The double a number is. *)
Definition to_double (n : number) : spec_float :=
  match n with
  | NaN => S754_nan
  | Int z => binary_normalize 53 1024 z 0 false
  | Frac m e => binary_normalize 53 1024 m (Z.neg e) false
  | Infinity negative => S754_infinity negative
  | NegZero => S754_zero true
  end.

(** The largest magnitude below which every integer is a double. *)
Definition safe (z : Z) : bool := Z.abs z <? 2 ^ 53.

(** The Number value of a non-zero integer. *)
Definition number_of_integer (z : Z) : number :=
  if safe z then Int z
  else
    match binary_normalize 53 1024 z 0 false with
    | S754_finite s m e => Int ((if s then -1 else 1) * (Z.pos m * 2 ^ e))
    | S754_infinity s => Infinity s
    | _ => NaN
    end.

(** The primitive values an options object can hold.  A string is a
    sequence of Unicode characters, held as the bytes of its UTF-8 encoding. *)
Inductive value :=
| VUndefined
| VNull
| VBool (b : bool)
| VNum (n : number)
| VStr (s : string).

#[global] Instance number_eq_dec : EqDecision number.
Proof. solve_decision. Defined.

#[global] Instance value_eq_dec : EqDecision value.
Proof. solve_decision. Defined.

(** A Buffer: a byte sequence. *)
Definition bytes := list Byte.byte.

(** [typeof v]. *)
Definition typeof (v : value) : string :=
  match v with
  | VUndefined => "undefined"
  | VNull => "object"
  | VBool _ => "boolean"
  | VNum _ => "number"
  | VStr _ => "string"
  end.

(** ToBoolean: what [!v], [v && ...], [v ? ... : ...] and [v ||= ...] test.
    Among the numbers NaN and the two zeros are falsy. *)
Definition truthy (v : value) : bool :=
  match v with
  | VUndefined | VNull => false
  | VBool b => b
  | VNum NaN => false
  | VNum (Int z) => negb (z =? 0)
  | VNum n =>
      match to_double n with
      | S754_zero _ | S754_nan => false
      | _ => true
      end
  | VStr s => negb (String.eqb s "")
  end.

(** [a === b] on primitive values: numbers as doubles (NaN is not equal to
    itself, the two zeros are equal), everything else by identity. *)
Definition strict_equals (a b : value) : bool :=
  match a, b with
  | VNum x, VNum y => SFeqb (to_double x) (to_double y)
  | _, _ => bool_decide (a = b)
  end.

(** *** Number::toString *)

(** The shortest decimal digits that read back as a given double. *)
Module Shortest.

(** [s * 10^t] compared with [b * 2^sh]. *)
Definition compare_scaled (s t b sh : Z) : comparison :=
  Z.compare (s * 10 ^ Z.max t 0 * 2 ^ Z.max (- sh) 0)
            (b * 2 ^ Z.max sh 0 * 10 ^ Z.max (- t) 0).

Section Double.

(** The double [m * 2^e], with [m] and [e] as the format has them. *)
Variables m e : Z.

(** The least [n] from [n0] on with [m * 2^e < 10^n]. *)
Fixpoint exponent_from (fuel : nat) (n0 : Z) : Z :=
  match fuel with
  | O => n0
  | S fuel' =>
      match compare_scaled 1 n0 m e with
      | Gt => n0
      | _ => exponent_from fuel' (n0 + 1)
      end
  end.

(** The [n] with [10^(n-1) <= m * 2^e < 10^n]; the search starts below it. *)
Definition exponent : Z :=
  exponent_from 8 ((Z.log2 m + e) * 30103 / 100000 - 2).

(** The bounds of the reals that round to the double, in units of
    [2^(e-2)]: half way to the double below and to the double above. *)
Definition lower : Z :=
  if (m =? 2 ^ 52) && (-1074 <? e) then 4 * m - 1 else 4 * m - 2.

Definition upper : Z := 4 * m + 2.

(** [s * 10^t] rounds to the double. *)
Definition reads_back (s t : Z) : bool :=
  match compare_scaled s t lower (e - 2) with
  | Gt => true
  | Eq => Z.even m
  | Lt => false
  end
  && match compare_scaled s t upper (e - 2) with
     | Lt => true
     | Eq => Z.even m
     | Gt => false
     end.

(** The digits [s] at [10^t] next below the double, or at it. *)
Definition floor_at (t : Z) : Z :=
  (m * 2 ^ Z.max e 0 * 10 ^ Z.max (- t) 0) / (2 ^ Z.max (- e) 0 * 10 ^ Z.max t 0).

(** With [k] digits: the candidate that reads back, the closer one when both
    do, the even one when they are as close. *)
Definition candidate (k : Z) : option (Z * Z) :=
  let t := exponent - k in
  let below := floor_at t in
  let above := below + 1 in
  match reads_back below t, reads_back above t with
  | true, true =>
      match compare_scaled (2 * below + 1) t (8 * m) (e - 2) with
      | Gt => Some (below, t)
      | Lt => Some (above, t)
      | Eq => Some (if Z.even below then below else above, t)
      end
  | true, false => Some (below, t)
  | false, true => Some (above, t)
  | false, false => None
  end.

(** The candidate with the fewest digits. *)
Fixpoint fewest (fuel : nat) (k : Z) : Z * Z :=
  match fuel with
  | O => (floor_at (exponent - k), exponent - k)
  | S fuel' =>
      match candidate k with
      | Some st => st
      | None => fewest fuel' (k + 1)
      end
  end.

End Double.

(** Zeros at the end of [s] go into the exponent. *)
Fixpoint strip (fuel : nat) (s t : Z) : Z * Z :=
  match fuel with
  | O => (s, t)
  | S fuel' => if (s mod 10 =? 0) && (0 <? s) then strip fuel' (s / 10) (t + 1) else (s, t)
  end.

(** The digits of the double [m * 2^e], and the [n] with the double equal to
    [0.digits * 10^n]. *)
Definition digits (m e : Z) : string * Z :=
  let '(s, t) := fewest m e 17 1 in
  let '(s, t) := strip 400 s t in
  let d := pretty s in
  (d, Z.of_nat (String.length d) + t).

Fixpoint zeros (n : nat) : string :=
  match n with
  | O => EmptyString
  | S n' => String "0" (zeros n')
  end.

(** The digits laid out as Number::toString lays them out. *)
Definition layout (d : string) (n : Z) : string :=
  let k := Z.of_nat (String.length d) in
  if (k <=? n) && (n <=? 21) then d +:+ zeros (Z.to_nat (n - k))
  else if (0 <? n) && (n <=? 21) then
    substring 0 (Z.to_nat n) d +:+ "." +:+ substring (Z.to_nat n) (Z.to_nat (k - n)) d
  else if (-6 <? n) && (n <=? 0) then "0." +:+ zeros (Z.to_nat (- n)) +:+ d
  else
    let exponent := (if n - 1 <? 0 then "-" else "+") +:+ pretty (Z.abs (n - 1)) in
    if k =? 1 then d +:+ "e" +:+ exponent
    else substring 0 1 d +:+ "." +:+ substring 1 (Z.to_nat (k - 1)) d
         +:+ "e" +:+ exponent.

End Shortest.

(** Number::toString of a double. *)
Definition double_to_string (x : spec_float) : string :=
  match x with
  | S754_nan => "NaN"
  | S754_zero _ => "0"
  | S754_infinity s => if s then "-Infinity" else "Infinity"
  | S754_finite s m e =>
      let '(d, n) := Shortest.digits (Z.pos m) e in
      (if s then "-" else "") +:+ Shortest.layout d n
  end.

(** Number::toString.  The shortest digits of a safe integer are all its
    digits. *)
Definition number_to_string (n : number) : string :=
  match n with
  | Int z => if safe z then pretty z else double_to_string (to_double n)
  | _ => double_to_string (to_double n)
  end.

(** ToString, as applied by a template literal and by [parseInt]. *)
Definition ToString (v : value) : string :=
  match v with
  | VUndefined => "undefined"
  | VNull => "null"
  | VBool true => "true"
  | VBool false => "false"
  | VNum n => number_to_string n
  | VStr s => s
  end.

(** *** parseInt *)

Definition char_code (c : ascii) : Z := Z.of_N (N_of_ascii c).

(** The white space and line terminators of one byte: U+0009 to U+000D and
    the space. *)
Definition is_white_space (c : ascii) : bool :=
  let n := char_code c in
  ((9 <=? n) && (n <=? 13)) || (n =? 32).

(** Of two bytes: U+00A0. *)
Definition is_white_space2 (c1 c2 : ascii) : bool :=
  (char_code c1 =? 194) && (char_code c2 =? 160).

(** Of three bytes: U+1680; U+2000 to U+200A, U+2028, U+2029 and U+202F;
    U+205F; U+3000; U+FEFF. *)
Definition is_white_space3 (c1 c2 c3 : ascii) : bool :=
  let a := char_code c1 in
  let b := char_code c2 in
  let c := char_code c3 in
  ((a =? 225) && ((b =? 154) && (c =? 128)))
  || ((a =? 226) && ((b =? 128)
                     && (((128 <=? c) && (c <=? 138))
                         || (c =? 168) || (c =? 169) || (c =? 175))))
  || ((a =? 226) && ((b =? 129) && (c =? 159)))
  || ((a =? 227) && ((b =? 128) && (c =? 128)))
  || ((a =? 239) && ((b =? 187) && (c =? 191))).

(** The string without the white space and line terminators it starts with. *)
Fixpoint trim_start (s : string) : string :=
  match s with
  | String c1 s1 =>
      if is_white_space c1 then trim_start s1
      else
        match s1 with
        | String c2 s2 =>
            if is_white_space2 c1 c2 then trim_start s2
            else
              match s2 with
              | String c3 s3 =>
                  if is_white_space3 c1 c2 c3 then trim_start s3 else s
              | EmptyString => s
              end
        | EmptyString => s
        end
  | EmptyString => EmptyString
  end.

(** The value of a character as a digit: 0-9, then a-z and A-Z for 10-35. *)
Definition digit_value (c : ascii) : option Z :=
  let n := char_code c in
  if (48 <=? n) && (n <=? 57) then Some (n - 48)
  else if (97 <=? n) && (n <=? 122) then Some (n - 87)
  else if (65 <=? n) && (n <=? 90) then Some (n - 55)
  else None.

(** The longest prefix of [s] made of digits of radix [R], as a number;
    [acc] is [None] until a digit has been read. *)
Fixpoint parse_digits (R : Z) (s : string) (acc : option Z) : option Z :=
  match s with
  | String c s' =>
      match digit_value c with
      | Some d =>
          if d <? R then parse_digits R s' (Some (default 0 acc * R + d))
          else acc
      | None => acc
      end
  | EmptyString => acc
  end.

(** [parseInt(v)] with no radix argument: leading white space is skipped, a
    sign is read, a [0x] or [0X] prefix selects radix 16, and the digits that
    follow are read; NaN when there is none, and otherwise the Number value
    of the integer they spell, with the sign. *)
Definition parseInt (v : value) : number :=
  let s := trim_start (ToString v) in
  let '(sign, s) :=
    match s with
    | String "-" r => (-1, r)
    | String "+" r => (1, r)
    | _ => (1, s)
    end in
  let '(R, s) :=
    match s with
    | String "0" (String "x" r) | String "0" (String "X" r) => (16, r)
    | _ => (10, s)
    end in
  match parse_digits R s None with
  | Some n =>
      if n =? 0 then (if sign <? 0 then NegZero else Int 0)
      else number_of_integer (sign * n)
  | None => NaN
  end.

(** ** Objects *)

(** An options object: a finite map from property names to values. *)
Abbreviation object := (gmap string value).

(** Reading a property; one that is not there reads as [undefined]. *)
Definition get (o : object) (k : string) : value := default VUndefined (o !! k).

(** ** The collaborators' data *)

(** [DownloadType] of osu-downloader. *)
Inductive DownloadType := Beatmap | Replay.

(** The second argument of [downloadFile]; a property that the object literal
    does not mention is [undefined] ([None] for [type]). *)
Record DownloadConfig := {
  cfg_save : bool;
  cfg_id : value;
  cfg_url : value;
  cfg_type : option DownloadType
}.

(** What [downloadFile] resolves to. *)
Record DownloadResult := {
  isSuccessful : bool;
  statusText : string;
  buffer : option bytes;
  filePath : option string
}.

(** A decoded beatmap: [metadata.beatmapId], the one field the pipeline
    touches, and everything else. *)
Record IBeatmap (R : Type) := {
  beatmapId : value;
  beatmap_rest : R
}.
Arguments beatmapId {R} _.
Arguments beatmap_rest {R} _.

(** [{ data, hash }]: [BeatmapParsingResult] and [ScoreParsingResult]. *)
Module ParsingResult.
Record t (T : Type) := {
  data : T;
  hash : string
}.
Arguments data {T} _.
Arguments hash {T} _.
End ParsingResult.
Abbreviation ParsingResult := ParsingResult.t.

(** What [md5] is applied to: a string or a Buffer. *)
Inductive md5_message :=
| OfString (s : string)
| OfBuffer (b : bytes).

(** The calls of collaborators, in the order they are made. *)
Inductive event :=
| Download (path : value) (config : DownloadConfig)
| ReadFile (path : option string)
| Md5 (message : md5_message)
| DecodeBeatmap (text : string) (parseSb : bool)
| DecodeScore (data : bytes) (parseReplay : bool).

(** The imports of the module: [downloadFile] of ./Utils, [readFileSync] of
    fs, [Buffer.prototype.toString], [md5] and the two decoders of
    osu-parsers.  [World] is what the effectful ones read and change (the
    network, the file system); [Thrown] is what they throw or reject with. *)
Class Collaborators := {
  World : Type;
  Thrown : Type;
  BeatmapRest : Type;
  IScore : Type;
  downloadFile : value -> DownloadConfig -> World -> (Thrown + DownloadResult) * World;
  readFileSync : option string -> World -> (Thrown + bytes) * World;
  toString : bytes -> string;
  md5 : md5_message -> string;
  decodeFromString : string -> bool -> World -> (Thrown + IBeatmap BeatmapRest) * World;
  decodeFromBuffer : bytes -> bool -> World -> (Thrown + IScore) * World
}.

(** ** The pipeline *)

Section Pipeline.

Context `{C : Collaborators}.

(** What a call can fail with: an [Error] or a [TypeError] constructed by the
    pipeline itself, with its message, or whatever a collaborator threw,
    passed on as it is. *)
Inductive exn :=
| Error (message : string)
| TypeError (message : string)
| Rethrown (t : Thrown).

Record state := {
  world : World;
  trace : list event
}.

(** A computation: it runs from a state and ends with a value or an exception.
    [await] is sequencing. *)
Definition M (A : Type) : Type := state -> (exn + A) * state.

Definition ret {A} (a : A) : M A := fun st => (inr a, st).

Definition throw {A} (e : exn) : M A := fun st => (inl e, st).

Definition bind {A B} (m : M A) (k : A -> M B) : M B :=
  fun st =>
    match m st with
    | (inr a, st') => k a st'
    | (inl e, st') => (inl e, st')
    end.

(** Calling a collaborator: the call is logged, then made. *)
Definition call {A} (ev : event) (f : World -> (Thrown + A) * World) : M A :=
  fun st =>
    let '(r, w) := f (world st) in
    (match r with inl t => inl (Rethrown t) | inr a => inr a end,
     {| world := w; trace := trace st ++ [ev] |}).

(** Calling a pure collaborator. *)
Definition call_pure {A} (ev : event) (a : A) : M A :=
  fun st => (inr a, {| world := world st; trace := trace st ++ [ev] |}).

End Pipeline.

Arguments exn {C}.
Arguments state {C}.
Arguments M {C} A.

#[global] Instance M_ret `{C : Collaborators} : MRet M := @ret C.
#[global] Instance M_bind `{C : Collaborators} : MBind M :=
  fun A B k m => bind m k.

Section Functions.

Context `{C : Collaborators}.

(** The double quote of the two download messages. *)
Definition dquote : string := String "034"%char EmptyString.

(** The messages of the errors the pipeline constructs. *)
Definition no_beatmap_source : string :=
  "No beatmap ID or beatmap URL was specified!".

Definition no_replay_source : string := "No replay URL was specified!".

Definition wrong_file : string := "Wrong beatmap file!".

Definition replay_download_failed : string := "Replay failed to download!".

Definition beatmap_id_download_failed (id : value) (status : string) : string :=
  "Beatmap with ID " +:+ dquote +:+ ToString id +:+ dquote
  +:+ " failed to download: " +:+ dquote +:+ status +:+ dquote.

Definition beatmap_url_download_failed (url : value) (status : string) : string :=
  "Beatmap from " +:+ dquote +:+ ToString url +:+ dquote
  +:+ " failed to download: " +:+ status.

(** [result.buffer] where a Buffer is expected.  The guard before each use
    has excluded an absent buffer; using one (in [data.toString()] or in
    [md5]) would raise a TypeError. *)
Definition as_Buffer (b : option bytes) : M bytes :=
  match b with
  | Some d => mret d
  | None => throw (TypeError "The data is not a Buffer")
  end.

(** [x ||= y] on the beatmap id of a decoded beatmap. *)
Definition backfill_beatmapId (b : IBeatmap BeatmapRest) (y : value)
  : IBeatmap BeatmapRest :=
  if truthy (beatmapId b) then b
  else {| beatmapId := y; beatmap_rest := beatmap_rest b |}.

Definition parseBeatmapData (data : bytes) (hash : value)
  : M (ParsingResult (IBeatmap BeatmapRest)) :=
  let stringified := toString data in
  targetHash ← call_pure (Md5 (OfString stringified)) (md5 (OfString stringified));
  if truthy hash && negb (strict_equals hash (VStr targetHash)) then
    throw (Error wrong_file)
  else
    let parseSb := false in
    decoded ← call (DecodeBeatmap stringified parseSb)
                   (decodeFromString stringified parseSb);
    mret {| ParsingResult.data := decoded; ParsingResult.hash := targetHash |}.

Definition parseBeatmapById (id hash savePath : value)
  : M (ParsingResult (IBeatmap BeatmapRest)) :=
  let config := {| cfg_save := bool_decide (typeof savePath = "string");
                   cfg_id := id; cfg_url := VUndefined; cfg_type := None |} in
  result ← call (Download savePath config) (downloadFile savePath config);
  if negb (isSuccessful result)
     || (negb (truthy savePath) && negb (bool_decide (is_Some (buffer result))))
  then
    throw (Error (beatmap_id_download_failed id (statusText result)))
  else
    data ← (if truthy savePath
            then call (ReadFile (filePath result)) (readFileSync (filePath result))
            else as_Buffer (buffer result));
    parsed ← parseBeatmapData data hash;
    mret {| ParsingResult.data :=
              backfill_beatmapId (ParsingResult.data parsed) (VNum (parseInt id));
            ParsingResult.hash := ParsingResult.hash parsed |}.

Definition parseCustomBeatmap (url hash savePath : value)
  : M (ParsingResult (IBeatmap BeatmapRest)) :=
  let config := {| cfg_save := bool_decide (typeof savePath = "string");
                   cfg_id := VUndefined; cfg_url := url; cfg_type := None |} in
  result ← call (Download savePath config) (downloadFile savePath config);
  if negb (isSuccessful result)
     || (negb (truthy savePath) && negb (bool_decide (is_Some (buffer result))))
  then
    throw (Error (beatmap_url_download_failed url (statusText result)))
  else
    data ← (if truthy savePath
            then call (ReadFile (filePath result)) (readFileSync (filePath result))
            else as_Buffer (buffer result));
    parseBeatmapData data hash.

Definition parseBeatmap (options : object)
  : M (ParsingResult (IBeatmap BeatmapRest)) :=
  let beatmapId := get options "beatmapId" in
  let fileURL := get options "fileURL" in
  let hash := get options "hash" in
  let savePath := get options "savePath" in
  if bool_decide (typeof beatmapId = "string")
     || bool_decide (typeof beatmapId = "number")
  then parseBeatmapById beatmapId hash savePath
  else if bool_decide (typeof fileURL = "string")
  then parseCustomBeatmap fileURL hash savePath
  else throw (Error no_beatmap_source).

Definition parseScoreData (data : bytes) (hash : value)
  : M (ParsingResult IScore) :=
  targetHash ← call_pure (Md5 (OfBuffer data)) (md5 (OfBuffer data));
  if truthy hash && negb (strict_equals hash (VStr targetHash)) then
    throw (Error wrong_file)
  else
    let parseReplay := false in
    decoded ← call (DecodeScore data parseReplay)
                   (decodeFromBuffer data parseReplay);
    mret {| ParsingResult.data := decoded; ParsingResult.hash := targetHash |}.

Definition parseCustomScore (url hash : value) : M (ParsingResult IScore) :=
  let config := {| cfg_save := false; cfg_id := VUndefined;
                   cfg_url := url; cfg_type := Some Replay |} in
  result ← call (Download (VStr "") config) (downloadFile (VStr "") config);
  if negb (isSuccessful result) || negb (bool_decide (is_Some (buffer result)))
  then throw (Error replay_download_failed)
  else
    data ← as_Buffer (buffer result);
    parseScoreData data hash.

Definition parseScore (options : object) : M (ParsingResult IScore) :=
  let fileURL := get options "fileURL" in
  let hash := get options "hash" in
  if bool_decide (typeof fileURL = "string")
  then parseCustomScore fileURL hash
  else throw (Error no_replay_source).

End Functions.

(** ** Reference collaborators

    Executable stand-ins for the imports, on which the pipeline can be run:
    the MD5 digest, the UTF-8 decoding of [Buffer.prototype.toString], a
    downloader that answers what a scenario prescribes, a file system and
    decoders that return what they were given. *)

(** The MD5 message digest (RFC 1321) over bytes, as lowercase hexadecimal. *)
Module MD5.

Definition mask : Z := 0xFFFFFFFF.

Definition add32 (a b : Z) : Z := Z.land (a + b) mask.

Definition not32 (a : Z) : Z := Z.lxor a mask.

Definition rotl (x c : Z) : Z :=
  Z.lor (Z.land (Z.shiftl x c) mask) (Z.shiftr x (32 - c)).

Definition K : list Z := [
    3614090360; 3905402710; 606105819; 3250441966;
    4118548399; 1200080426; 2821735955; 4249261313;
    1770035416; 2336552879; 4294925233; 2304563134;
    1804603682; 4254626195; 2792965006; 1236535329;
    4129170786; 3225465664; 643717713; 3921069994;
    3593408605; 38016083; 3634488961; 3889429448;
    568446438; 3275163606; 4107603335; 1163531501;
    2850285829; 4243563512; 1735328473; 2368359562;
    4294588738; 2272392833; 1839030562; 4259657740;
    2763975236; 1272893353; 4139469664; 3200236656;
    681279174; 3936430074; 3572445317; 76029189;
    3654602809; 3873151461; 530742520; 3299628645;
    4096336452; 1126891415; 2878612391; 4237533241;
    1700485571; 2399980690; 4293915773; 2240044497;
    1873313359; 4264355552; 2734768916; 1309151649;
    4149444226; 3174756917; 718787259; 3951481745 ].

Definition shifts : list Z := [
    7; 12; 17; 22; 7; 12; 17; 22; 7; 12; 17; 22; 7; 12; 17; 22;
    5; 9; 14; 20; 5; 9; 14; 20; 5; 9; 14; 20; 5; 9; 14; 20;
    4; 11; 16; 23; 4; 11; 16; 23; 4; 11; 16; 23; 4; 11; 16; 23;
    6; 10; 15; 21; 6; 10; 15; 21; 6; 10; 15; 21; 6; 10; 15; 21 ].

Definition at_index (l : list Z) (i : Z) : Z := nth (Z.to_nat i) l 0.

(** [n] bytes of [x], least significant first. *)
Fixpoint le_bytes (n : nat) (x : Z) : list Z :=
  match n with
  | O => []
  | S n' => x mod 256 :: le_bytes n' (x / 256)
  end.

(** The message, a 1 bit, zeros up to 56 modulo 64 and the bit length. *)
Definition pad (msg : list Z) : list Z :=
  let len := Z.of_nat (length msg) in
  msg ++ [128] ++ repeat 0 (Z.to_nat ((55 - len) mod 64)) ++ le_bytes 8 (8 * len).

(** Little-endian 32-bit words of a byte sequence. *)
Fixpoint words (bs : list Z) : list Z :=
  match bs with
  | b0 :: b1 :: b2 :: b3 :: rest =>
      (b0 + 256 * (b1 + 256 * (b2 + 256 * b3))) :: words rest
  | _ => []
  end.

Definition registers : Type := Z * Z * Z * Z.

Definition round (m : list Z) (r : registers) (i : Z) : registers :=
  let '(a, b, c, d) := r in
  let '(f, g) :=
    if i <? 16 then (Z.lor (Z.land b c) (Z.land (not32 b) d), i)
    else if i <? 32 then (Z.lor (Z.land d b) (Z.land (not32 d) c), (5 * i + 1) mod 16)
    else if i <? 48 then (Z.lxor (Z.lxor b c) d, (3 * i + 5) mod 16)
    else (Z.lxor c (Z.lor b (not32 d)), (7 * i) mod 16) in
  let f' := add32 (add32 (add32 f a) (at_index K i)) (at_index m g) in
  (d, add32 b (rotl f' (at_index shifts i)), b, c).

Definition block (r : registers) (m : list Z) : registers :=
  let '(a, b, c, d) := r in
  let '(a', b', c', d') := fold_left (round m) (map Z.of_nat (seq 0 64)) r in
  (add32 a a', add32 b b', add32 c c', add32 d d').

(** The 16-word blocks of a word sequence. *)
Fixpoint blocks (fuel : nat) (ws : list Z) : list (list Z) :=
  match fuel, ws with
  | S fuel', _ :: _ => firstn 16 ws :: blocks fuel' (skipn 16 ws)
  | _, _ => []
  end.

Definition hex_digit (n : Z) : ascii :=
  ascii_of_N (Z.to_N (if n <? 10 then 48 + n else 87 + n)).

Fixpoint hex (bs : list Z) : string :=
  match bs with
  | [] => EmptyString
  | b :: rest => String (hex_digit (b / 16)) (String (hex_digit (b mod 16)) (hex rest))
  end.

Definition digest (msg : list Z) : string :=
  let ws := words (pad msg) in
  let '(a, b, c, d) :=
    fold_left block (blocks (length ws) ws)
              (0x67452301, 0xefcdab89, 0x98badcfe, 0x10325476) in
  hex (le_bytes 4 a ++ le_bytes 4 b ++ le_bytes 4 c ++ le_bytes 4 d).

End MD5.

(** UTF-8 decoding that replaces each ill-formed subsequence by U+FFFD.  The
    text is kept in UTF-8, so decoding a well-formed buffer returns its bytes
    and only the ill-formed subsequences change. *)
Module Utf8.

Definition replacement : list Z := [0xEF; 0xBF; 0xBD].

(** How many continuation bytes are awaited, the range the next one must lie
    in, and the bytes of the sequence read so far. *)
Record decoder := {
  needed : nat;
  lower : Z;
  upper : Z;
  pending : list Z
}.

Definition idle : decoder :=
  {| needed := 0; lower := 0x80; upper := 0xBF; pending := [] |}.

(** A byte read when no sequence is open. *)
Definition lead (b : Z) : list Z * decoder :=
  if b <=? 0x7F then ([b], idle)
  else if (0xC2 <=? b) && (b <=? 0xDF) then
    ([], {| needed := 1; lower := 0x80; upper := 0xBF; pending := [b] |})
  else if (0xE0 <=? b) && (b <=? 0xEF) then
    ([], {| needed := 2;
            lower := if b =? 0xE0 then 0xA0 else 0x80;
            upper := if b =? 0xED then 0x9F else 0xBF;
            pending := [b] |})
  else if (0xF0 <=? b) && (b <=? 0xF4) then
    ([], {| needed := 3;
            lower := if b =? 0xF0 then 0x90 else 0x80;
            upper := if b =? 0xF4 then 0x8F else 0xBF;
            pending := [b] |})
  else (replacement, idle).

Definition step (d : decoder) (b : Z) : list Z * decoder :=
  match needed d with
  | O => lead b
  | S n =>
      if (lower d <=? b) && (b <=? upper d) then
        match n with
        | O => (pending d ++ [b], idle)
        | S _ => ([], {| needed := n; lower := 0x80; upper := 0xBF;
                         pending := pending d ++ [b] |})
        end
      else
        let '(out, d') := lead b in (replacement ++ out, d')
  end.

Fixpoint decode_from (d : decoder) (bs : list Z) : list Z :=
  match bs with
  | [] => match needed d with O => [] | S _ => replacement end
  | b :: rest => let '(out, d') := step d b in out ++ decode_from d' rest
  end.

Definition decode (bs : list Z) : list Z := decode_from idle bs.

End Utf8.

Definition Z_of_byte (b : Byte.byte) : Z := Z.of_N (Byte.to_N b).

Definition ascii_of_Z (z : Z) : ascii := ascii_of_N (Z.to_N z).

Definition string_of_codes (l : list Z) : string :=
  string_of_list_ascii (map ascii_of_Z l).

Definition codes_of_string (s : string) : list Z :=
  map char_code (list_ascii_of_string s).

(** [data.toString()] *)
Definition utf8_toString (data : bytes) : string :=
  string_of_codes (Utf8.decode (map Z_of_byte data)).

(** [md5(message)]: a string is hashed through its UTF-8 bytes. *)
Definition md5_hex (message : md5_message) : string :=
  match message with
  | OfString s => MD5.digest (codes_of_string s)
  | OfBuffer b => MD5.digest (map Z_of_byte b)
  end.

(** The bytes of an ASCII text. *)
Definition bytes_of_string (s : string) : bytes := list_byte_of_string s.

(** A scenario for the reference collaborators: what the downloader answers,
    the content it persists at [filePath] when told to save, and the beatmap
    id the decoder finds in the file. *)
Record Scenario := {
  answer : DownloadResult;
  content : bytes;
  decoded_id : value
}.

Definition reference (s : Scenario) : Collaborators := {|
  World := gmap string bytes;
  Thrown := string;
  BeatmapRest := string;
  IScore := bytes;
  downloadFile path config files :=
    (inr (answer s),
     match cfg_save config, isSuccessful (answer s), filePath (answer s) with
     | true, true, Some p => <[p := content s]> files
     | _, _, _ => files
     end);
  readFileSync path files :=
    match path with
    | Some p =>
        match files !! p with
        | Some b => (inr b, files)
        | None => (inl "ENOENT", files)
        end
    | None => (inl "ERR_INVALID_ARG_TYPE", files)
    end;
  toString := utf8_toString;
  md5 := md5_hex;
  decodeFromString text parseSb files :=
    (inr {| beatmapId := decoded_id s; beatmap_rest := text |}, files);
  decodeFromBuffer b parseReplay files := (inr b, files)
|}.

(** The collaborators with the network down: the downloader throws. *)
Definition offline : Collaborators := {|
  World := gmap string bytes;
  Thrown := string;
  BeatmapRest := string;
  IScore := bytes;
  downloadFile path config files := (inl "ECONNREFUSED", files);
  readFileSync path files := (inl "ENOENT", files);
  toString := utf8_toString;
  md5 := md5_hex;
  decodeFromString text parseSb files :=
    (inr {| beatmapId := VUndefined; beatmap_rest := text |}, files);
  decodeFromBuffer b parseReplay files := (inr b, files)
|}.

Definition offline_initial : @state offline :=
  @Build_state offline (∅ : gmap string bytes) [].

(** The state a call starts from in the examples: no file, no call made. *)
Definition initial (s : Scenario) : @state (reference s) :=
  @Build_state (reference s) (∅ : gmap string bytes) [].

(** The file of the examples and its digest. *)
Definition osu_file : bytes := bytes_of_string "osu file format v14".

Definition osu_file_md5 : string := "4689dd208fd953249a4c19fc6aa7b866".

(** The downloader hands the file over in a buffer; the decoder finds no
    beatmap id in it. *)
Definition served : Scenario :=
  {| answer := {| isSuccessful := true; statusText := "OK";
                  buffer := Some osu_file; filePath := None |};
     content := osu_file;
     decoded_id := VNum (Int 0) |}.

(** The same, with a beatmap id in the file. *)
Definition served_with_id : Scenario :=
  {| answer := answer served; content := osu_file;
     decoded_id := VNum (Int 42) |}.

(** The downloader persists the file and returns no buffer. *)
Definition saved : Scenario :=
  {| answer := {| isSuccessful := true; statusText := "OK";
                  buffer := None; filePath := Some "./cache/1234567.osu" |};
     content := osu_file;
     decoded_id := VNum (Int 0) |}.

(** The download fails. *)
Definition not_found : Scenario :=
  {| answer := {| isSuccessful := false; statusText := "404";
                  buffer := None; filePath := None |};
     content := [];
     decoded_id := VUndefined |}.

(** The downloader reports success and hands over nothing. *)
Definition no_payload : Scenario :=
  {| answer := {| isSuccessful := true; statusText := "OK";
                  buffer := None; filePath := None |};
     content := [];
     decoded_id := VUndefined |}.

(** The requests of the examples. *)
Definition by_id_request : object := {[ "beatmapId" := VNum (Int 1234567) ]}.

Definition replay_request : object :=
  {[ "fileURL" := VStr "https://x/replay.osr" ]}.

Definition replayURL_request : object :=
  {[ "replayURL" := VStr "https://x/replay.osr" ]}.

Definition string_id_request : object := {[ "beatmapId" := VStr "1234567" ]}.

Definition both_modes_request : object :=
  <["fileURL" := VStr "https://x/map.osu"]> by_id_request.

Definition with_hash (h : string) (options : object) : object :=
  <["hash" := VStr h]> options.

(** What the reference decoder makes of the file, with [id] as beatmap id. *)
Definition decoded_file (id : value) : IBeatmap string :=
  {| beatmapId := id; beatmap_rest := "osu file format v14" |}.

(** The state after the calls [evs], from [initial s], when no file was written. *)
Definition after (s : Scenario) (evs : list event) : @state (reference s) :=
  @Build_state (reference s) (∅ : gmap string bytes) evs.

(** ** Notions the properties are stated with *)

Definition is_download (e : event) : bool :=
  match e with Download _ _ => true | _ => false end.

Definition is_decode (e : event) : bool :=
  match e with DecodeBeatmap _ _ | DecodeScore _ _ => true | _ => false end.

Definition is_md5 (e : event) : bool :=
  match e with Md5 _ => true | _ => false end.

(** No collaborator call of the kind [p] among the events [evs]. *)
Definition never (p : event -> bool) (evs : list event) : Prop :=
  forallb (fun e => negb (p e)) evs = true.

(** The step of the pipeline a call belongs to: acquiring (the download, then
    the file read back), hash checking, decoding. *)
Definition phase (e : event) : nat :=
  match e with
  | Download _ _ => 1
  | ReadFile _ => 2
  | Md5 _ => 3
  | DecodeBeatmap _ _ | DecodeScore _ _ => 4
  end.

(** Each number is less than the next. *)
Fixpoint ascending (l : list nat) : bool :=
  match l with
  | a :: (b :: _) as rest => Nat.ltb a b && ascending rest
  | _ => true
  end.

(** The flag of a decoder call is off. *)
Definition flag_off (e : event) : bool :=
  match e with
  | DecodeBeatmap _ parseSb => negb parseSb
  | DecodeScore _ parseReplay => negb parseReplay
  | _ => true
  end.

(** [needle] occurs in [hay]. *)
Fixpoint carries (hay needle : string) : bool :=
  String.prefix needle hay
  || match hay with
     | String _ hay' => carries hay' needle
     | EmptyString => false
     end.

Section Acquisition.

Context `{C : Collaborators}.

(** The acquisition step shared by [parseBeatmapById] and
    [parseCustomBeatmap]: the download, the guard on its result and the
    choice between the persisted file and the buffer.  [failed] makes the
    message of the error from the status text. *)
Definition acquireBeatmapWith (config : DownloadConfig) (failed : string -> string)
    (savePath : value) : M bytes :=
  result ← call (Download savePath config) (downloadFile savePath config);
  if negb (isSuccessful result)
     || (negb (truthy savePath) && negb (bool_decide (is_Some (buffer result))))
  then throw (Error (failed (statusText result)))
  else if truthy savePath
  then call (ReadFile (filePath result)) (readFileSync (filePath result))
  else as_Buffer (buffer result).

Definition id_config (id savePath : value) : DownloadConfig :=
  {| cfg_save := bool_decide (typeof savePath = "string");
     cfg_id := id; cfg_url := VUndefined; cfg_type := None |}.

Definition url_config (url savePath : value) : DownloadConfig :=
  {| cfg_save := bool_decide (typeof savePath = "string");
     cfg_id := VUndefined; cfg_url := url; cfg_type := None |}.

Definition replay_config (url : value) : DownloadConfig :=
  {| cfg_save := false; cfg_id := VUndefined;
     cfg_url := url; cfg_type := Some Replay |}.

(** The acquisition step of [parseBeatmap]: everything up to the bytes. *)
Definition acquireBeatmap (options : object) : M bytes :=
  let beatmapId := get options "beatmapId" in
  let fileURL := get options "fileURL" in
  let savePath := get options "savePath" in
  if bool_decide (typeof beatmapId = "string")
     || bool_decide (typeof beatmapId = "number")
  then acquireBeatmapWith (id_config beatmapId savePath)
                          (beatmap_id_download_failed beatmapId) savePath
  else if bool_decide (typeof fileURL = "string")
  then acquireBeatmapWith (url_config fileURL savePath)
                          (beatmap_url_download_failed fileURL) savePath
  else throw (Error no_beatmap_source).

(** The acquisition step of [parseScore]. *)
Definition acquireScore (options : object) : M bytes :=
  let fileURL := get options "fileURL" in
  if bool_decide (typeof fileURL = "string")
  then
    result ← call (Download (VStr "") (replay_config fileURL))
                  (downloadFile (VStr "") (replay_config fileURL));
    if negb (isSuccessful result) || negb (bool_decide (is_Some (buffer result)))
    then throw (Error replay_download_failed)
    else as_Buffer (buffer result)
  else throw (Error no_replay_source).

(** The state after further calls [evs] that left the world as [w]. *)
Definition logged (st : state) (w : World) (evs : list event) : state :=
  {| world := w; trace := trace st ++ evs |}.

(** A request in by-identifier mode. *)
Definition by_identifier (options : object) : bool :=
  bool_decide (typeof (get options "beatmapId") = "string")
  || bool_decide (typeof (get options "beatmapId") = "number").

(** A beatmap request that names a source, the configuration its download
    is made with and the message of its download error. *)
Definition has_source (options : object) : bool :=
  by_identifier options || bool_decide (typeof (get options "fileURL") = "string").

Definition source_config (options : object) : DownloadConfig :=
  if by_identifier options
  then id_config (get options "beatmapId") (get options "savePath")
  else url_config (get options "fileURL") (get options "savePath").

Definition download_failed_message (options : object) (status : string) : string :=
  if by_identifier options
  then beatmap_id_download_failed (get options "beatmapId") status
  else beatmap_url_download_failed (get options "fileURL") status.

(** What [parseBeatmap] returns when the decoder has returned [decoded] and
    the digest is [targetHash]. *)
Definition beatmap_result (options : object) (decoded : IBeatmap BeatmapRest)
    (targetHash : string) : ParsingResult (IBeatmap BeatmapRest) :=
  {| ParsingResult.data :=
       if by_identifier options
       then backfill_beatmapId decoded (VNum (parseInt (get options "beatmapId")))
       else decoded;
     ParsingResult.hash := targetHash |}.

(** The hash guard lets [hash] through against the digest [targetHash]. *)
Definition accepted (hash : value) (targetHash : string) : Prop :=
  truthy hash = false \/ hash = VStr targetHash.

(** A call a score run may make besides the digest and the decoder: the one
    download of the replay, into a buffer.  No file is read. *)
Definition replay_call (url : value) (e : event) : Prop :=
  match e with
  | Download path config => path = VStr "" /\ config = replay_config url
  | ReadFile _ => False
  | _ => True
  end.

End Acquisition.

(** The calls that belong to the beatmap pipeline, and to the score pipeline. *)
Definition beatmap_call (e : event) : bool :=
  match e with
  | DecodeScore _ _ | Md5 (OfBuffer _) => false
  | _ => true
  end.

Definition score_call (e : event) : bool :=
  match e with
  | DecodeBeatmap _ _ | Md5 (OfString _) | ReadFile _ => false
  | _ => true
  end.

(** A character is a decimal digit. *)
Definition is_digit (c : ascii) : bool :=
  (48 <=? char_code c) && (char_code c <=? 57).

Fixpoint digits_only (s : string) : bool :=
  match s with
  | String c s' => is_digit c && digits_only s'
  | EmptyString => true
  end.

(** The state after the acquisition of the file by identifier and by replay
    URL, and the file system after the download of [saved]. *)
Definition acquired_by_id : @state (reference served) :=
  after served [Download VUndefined (id_config (VNum (Int 1234567)) VUndefined)].

Definition acquired_replay : @state (reference served) :=
  after served [Download (VStr "") (replay_config (VStr "https://x/replay.osr"))].

Definition saved_files : gmap string bytes :=
  {[ "./cache/1234567.osu" := osu_file ]}.

Definition save_request : object :=
  <["savePath" := VStr "./cache/1234567.osu"]> by_id_request.

(** * Properties *)

(** ** Running the reference collaborators *)

Example parseInt_rounds_to_double :
  parseInt (VStr "9007199254740993") = Int 9007199254740992.
Proof. vm_compute. reflexivity. Qed.

Example parseInt_skips_no_break_space :
  parseInt (VStr (String "194" (String "160" "42"))) = Int 42.
Proof. vm_compute. reflexivity. Qed.

Example parseInt_skips_line_separator :
  parseInt (VStr (String "226" (String "128" (String "168" "-42")))) = Int (-42).
Proof. vm_compute. reflexivity. Qed.

Example parseInt_fraction : parseInt (VNum (Frac 3 1)) = Int 1.
Proof. vm_compute. reflexivity. Qed.

Example parseInt_large_number : parseInt (VNum (Int (10 ^ 21))) = Int 1.
Proof. vm_compute. reflexivity. Qed.

Example parseInt_infinity : parseInt (VNum (Infinity false)) = NaN.
Proof. vm_compute. reflexivity. Qed.

Example parseInt_negative_zero : parseInt (VStr "-0") = NegZero.
Proof. vm_compute. reflexivity. Qed.

Example toString_exponent : ToString (VNum (Int (10 ^ 21))) = "1e+21".
Proof. vm_compute. reflexivity. Qed.

Example toString_rounded : ToString (VNum (Int (2 ^ 64))) = "18446744073709552000".
Proof. vm_compute. reflexivity. Qed.

Example toString_fraction : ToString (VNum (Frac 3 1)) = "1.5".
Proof. vm_compute. reflexivity. Qed.

Example toString_small : ToString (VNum (Frac 1 30)) = "9.313225746154785e-10".
Proof. vm_compute. reflexivity. Qed.

Example download_error_prints_the_identifier :
  beatmap_id_download_failed (VNum (Int (10 ^ 21))) "404"
  = "Beatmap with ID " +:+ dquote +:+ "1e+21" +:+ dquote
    +:+ " failed to download: " +:+ dquote +:+ "404" +:+ dquote.
Proof. vm_compute. reflexivity. Qed.

Example parseInt_digits : parseInt (VStr "1234567") = Int 1234567.
Proof. reflexivity. Qed.

Example parseInt_number : parseInt (VNum (Int 1234567)) = Int 1234567.
Proof. vm_compute. reflexivity. Qed.

Example parseInt_prefix : parseInt (VStr "  -42abc") = Int (-42).
Proof. reflexivity. Qed.

Example parseInt_hex : parseInt (VStr "0x1F") = Int 31.
Proof. reflexivity. Qed.

Example parseInt_not_a_number : parseInt (VStr "abc") = NaN.
Proof. reflexivity. Qed.

Example md5_empty : md5_hex (OfString "") = "d41d8cd98f00b204e9800998ecf8427e".
Proof. vm_compute. reflexivity. Qed.

Example md5_abc : md5_hex (OfBuffer (bytes_of_string "abc"))
                  = "900150983cd24fb0d6963f7d28e17f72".
Proof. vm_compute. reflexivity. Qed.

Example toString_ascii :
  utf8_toString (bytes_of_string "osu file format v14") = "osu file format v14".
Proof. vm_compute. reflexivity. Qed.

Example toString_ill_formed :
  codes_of_string (utf8_toString [Byte.xff; Byte.x41]) = [0xEF; 0xBF; 0xBD; 0x41].
Proof. vm_compute. reflexivity. Qed.

(** ** The shape of the pipeline *)

Ltac unfold_monad :=
  unfold as_Buffer in *;
  unfold mbind, M_bind, bind, mret, M_ret, ret, throw, call, call_pure in *.

Ltac unfold_pipeline :=
  unfold parseBeatmap, parseScore, parseBeatmapById, parseCustomBeatmap,
    parseCustomScore, parseBeatmapData, parseScoreData, acquireBeatmap,
    acquireScore, acquireBeatmapWith, id_config, url_config, replay_config,
    by_identifier in *;
  unfold_monad.

Section Shape.

Context `{C : Collaborators}.

(** [parseBeatmapData]: the digest of the text, the guard, the decoder. *)
Lemma parseBeatmapData_eq (data : bytes) (hash : value) (st : state) :
  parseBeatmapData data hash st =
  let text := toString data in
  let targetHash := md5 (OfString text) in
  if truthy hash && negb (strict_equals hash (VStr targetHash)) then
    (inl (Error wrong_file), logged st (world st) [Md5 (OfString text)])
  else
    match decodeFromString text false (world st) with
    | (inl t, w) =>
        (inl (Rethrown t), logged st w [Md5 (OfString text); DecodeBeatmap text false])
    | (inr decoded, w) =>
        (inr {| ParsingResult.data := decoded; ParsingResult.hash := targetHash |},
         logged st w [Md5 (OfString text); DecodeBeatmap text false])
    end.
Proof.
  unfold_pipeline. unfold logged. cbn.
  repeat (case_match; simplify_eq; cbn in *);
    rewrite <- ?app_assoc; cbn; congruence.
Qed.

(** [parseScoreData]: the digest of the bytes, the guard, the decoder. *)
Lemma parseScoreData_eq (data : bytes) (hash : value) (st : state) :
  parseScoreData data hash st =
  let targetHash := md5 (OfBuffer data) in
  if truthy hash && negb (strict_equals hash (VStr targetHash)) then
    (inl (Error wrong_file), logged st (world st) [Md5 (OfBuffer data)])
  else
    match decodeFromBuffer data false (world st) with
    | (inl t, w) =>
        (inl (Rethrown t), logged st w [Md5 (OfBuffer data); DecodeScore data false])
    | (inr decoded, w) =>
        (inr {| ParsingResult.data := decoded; ParsingResult.hash := targetHash |},
         logged st w [Md5 (OfBuffer data); DecodeScore data false])
    end.
Proof.
  unfold_pipeline. unfold logged. cbn.
  repeat (case_match; simplify_eq; cbn in *);
    rewrite <- ?app_assoc; cbn; congruence.
Qed.

(** [parseBeatmap] is its acquisition step, then [parseBeatmapData], then, in
    by-identifier mode only, the backfill of the beatmap id. *)
Lemma parseBeatmap_steps (options : object) (st : state) :
  parseBeatmap options st =
  match acquireBeatmap options st with
  | (inl e, st1) => (inl e, st1)
  | (inr data, st1) =>
      match parseBeatmapData data (get options "hash") st1 with
      | (inl e, st2) => (inl e, st2)
      | (inr parsed, st2) =>
          (inr (if by_identifier options
                then {| ParsingResult.data :=
                          backfill_beatmapId (ParsingResult.data parsed)
                            (VNum (parseInt (get options "beatmapId")));
                        ParsingResult.hash := ParsingResult.hash parsed |}
                else parsed), st2)
      end
  end.
Proof.
  unfold parseBeatmap, parseBeatmapById, parseCustomBeatmap, acquireBeatmap,
    acquireBeatmapWith, by_identifier, id_config, url_config.
  unfold_monad.
  repeat case_match; simplify_eq; try reflexivity.
Qed.

(** [parseScore] is its acquisition step, then [parseScoreData]. *)
Lemma parseScore_steps (options : object) (st : state) :
  parseScore options st =
  match acquireScore options st with
  | (inl e, st1) => (inl e, st1)
  | (inr data, st1) => parseScoreData data (get options "hash") st1
  end.
Proof.
  unfold parseScore, parseCustomScore, acquireScore, replay_config.
  unfold_monad.
  repeat case_match; simplify_eq; try reflexivity.
Qed.

(** The TypeError of [as_Buffer] is never raised: the guards before each use
    of [result.buffer] exclude an absent buffer. *)
Lemma as_Buffer_is_guarded (options : object) (st : state) (message : string) :
  fst (parseBeatmap options st) <> inl (TypeError message)
  /\ fst (parseScore options st) <> inl (TypeError message).
Proof.
  split; unfold_pipeline;
    repeat (case_match; simplify_eq; cbn in * ); try discriminate;
    match goal with
    | H : negb _ || true = false |- _ => rewrite orb_true_r in H; discriminate
    | H : negb _ || negb false = false |- _ => rewrite orb_true_r in H; discriminate
    end.
Qed.

(** Acquisition calls the downloader and the file system only. *)
Lemma acquireBeatmap_events (options : object) (st st1 : state) (r : exn + bytes) :
  acquireBeatmap options st = (r, st1) ->
  exists evs, trace st1 = trace st ++ evs
              /\ never is_decode evs /\ never is_md5 evs.
Proof.
  unfold_pipeline. intros H.
  repeat case_match; simplify_eq; cbn; rewrite <- ?app_assoc;
    first [ by (eexists; split; [reflexivity | split; reflexivity])
          | by (exists []; rewrite app_nil_r; repeat split) ].
Qed.

Lemma acquireScore_events (options : object) (st st1 : state) (r : exn + bytes) :
  acquireScore options st = (r, st1) ->
  exists evs, trace st1 = trace st ++ evs
              /\ never is_decode evs /\ never is_md5 evs.
Proof.
  unfold_pipeline. intros H.
  repeat case_match; simplify_eq; cbn; rewrite <- ?app_assoc;
    first [ by (eexists; split; [reflexivity | split; reflexivity])
          | by (exists []; rewrite app_nil_r; repeat split) ].
Qed.

End Shape.

(** ** Requests without a source *)

Section MissingSource.

Context `{C : Collaborators}.

(** A beatmap request whose [beatmapId] is neither a string nor a number and
    whose [fileURL] is not a string is refused before anything is called. *)
Lemma parseBeatmap_no_source (options : object) (st : state) :
  typeof (get options "beatmapId") <> "string" ->
  typeof (get options "beatmapId") <> "number" ->
  typeof (get options "fileURL") <> "string" ->
  parseBeatmap options st = (inl (Error no_beatmap_source), st).
Proof.
  intros Hs Hn Hu. unfold parseBeatmap.
  rewrite !bool_decide_eq_false_2 by assumption. reflexivity.
Qed.

(** A score request whose [fileURL] is not a string is refused before anything
    is called. *)
Lemma parseScore_no_source (options : object) (st : state) :
  typeof (get options "fileURL") <> "string" ->
  parseScore options st = (inl (Error no_replay_source), st).
Proof.
  intros Hu. unfold parseScore.
  rewrite bool_decide_eq_false_2 by assumption. reflexivity.
Qed.

(** [parseScore] never reads [replayURL]. *)
Lemma parseScore_ignores_replayURL (options : object) (v : value) (st : state) :
  parseScore (<["replayURL" := v]> options) st = parseScore options st.
Proof.
  unfold parseScore, get. rewrite !lookup_insert_ne by discriminate. reflexivity.
Qed.

(** C3. A [parseBeatmap] request with neither a beatmap identifier nor a file
    URL set, and a [parseScore] request with no source URL set, fail with the
    missing-source error of their pipeline, and the state the call ends in is
    the state it started from: the downloader was not called, nor anything
    else, and the world is as it was. *)
Theorem missing_source_without_io (options : object) (st : state) :
  (get options "beatmapId" = VUndefined ->
   get options "fileURL" = VUndefined ->
   parseBeatmap options st = (inl (Error no_beatmap_source), st))
  /\ (get options "fileURL" = VUndefined ->
      parseScore options st = (inl (Error no_replay_source), st)).
Proof.
  split.
  - intros Hid Hurl. apply parseBeatmap_no_source; rewrite ?Hid, ?Hurl; discriminate.
  - intros Hurl. apply parseScore_no_source; rewrite Hurl; discriminate.
Qed.

(** C9. [parseScore] looks for the URL under [fileURL] only: a request that
    gives its URL through the [replayURL] property of [IScoreParsingOptions]
    and has no [fileURL] property fails with the missing-source error, and no
    download is attempted (the state is unchanged). *)
Theorem replayURL_is_not_consulted (options : object) (url : string) (st : state) :
  options !! "replayURL" = Some (VStr url) ->
  options !! "fileURL" = None ->
  parseScore options st = (inl (Error no_replay_source), st).
Proof.
  intros _ Hnone. apply parseScore_no_source.
  unfold get. rewrite Hnone. discriminate.
Qed.

End MissingSource.

Lemma missing_source_without_io_witness :
  @parseBeatmap (reference served) (∅ : object) (initial served)
    = (inl (Error no_beatmap_source), initial served)
  /\ @parseScore (reference served) replayURL_request (initial served)
    = (inl (Error no_replay_source), initial served).
Proof.
  split.
  - apply (proj1 (missing_source_without_io (C := reference served) ∅ (initial served)));
      reflexivity.
  - apply (proj2 (missing_source_without_io (C := reference served)
                    replayURL_request (initial served)));
      reflexivity.
Defined.

Lemma replayURL_is_not_consulted_witness :
  @parseScore (reference served) replayURL_request (initial served)
  = (inl (Error no_replay_source), initial served).
Proof.
  apply (replayURL_is_not_consulted (C := reference served)
           replayURL_request "https://x/replay.osr");
    reflexivity.
Defined.

(** ** The hash guard *)

Section HashGuard.

Context `{C : Collaborators}.

Lemma get_delete (options : object) (k : string) :
  get (delete k options) k = VUndefined.
Proof. unfold get. by rewrite lookup_delete_eq. Qed.

Lemma get_delete_ne (options : object) (k k' : string) :
  k <> k' -> get (delete k options) k' = get options k'.
Proof. intros Hne. unfold get. by rewrite lookup_delete_ne. Qed.

(** The acquisition steps do not read [hash]. *)
Lemma acquireBeatmap_delete_hash (options : object) (st : state) :
  acquireBeatmap (delete "hash" options) st = acquireBeatmap options st.
Proof.
  unfold acquireBeatmap. rewrite !get_delete_ne by discriminate. reflexivity.
Qed.

Lemma acquireScore_delete_hash (options : object) (st : state) :
  acquireScore (delete "hash" options) st = acquireScore options st.
Proof.
  unfold acquireScore. rewrite !get_delete_ne by discriminate. reflexivity.
Qed.

(** A falsy [hash] switches the guard off, whatever the digest is. *)
Lemma parseBeatmapData_falsy_hash (data : bytes) (hash hash' : value) (st : state) :
  truthy hash = false -> truthy hash' = false ->
  parseBeatmapData data hash st = parseBeatmapData data hash' st.
Proof.
  intros H H'. rewrite !parseBeatmapData_eq. cbn. by rewrite H, H'.
Qed.

Lemma parseScoreData_falsy_hash (data : bytes) (hash hash' : value) (st : state) :
  truthy hash = false -> truthy hash' = false ->
  parseScoreData data hash st = parseScoreData data hash' st.
Proof.
  intros H H'. rewrite !parseScoreData_eq. cbn. by rewrite H, H'.
Qed.

(** No acquisition step fails with the error of the hash guard. *)
Lemma acquireBeatmap_not_wrong_file (options : object) (st st1 : state) (e : exn) :
  acquireBeatmap options st = (inl e, st1) -> e <> Error wrong_file.
Proof.
  unfold_pipeline. intros H.
  repeat case_match; simplify_eq; discriminate.
Qed.

Lemma acquireScore_not_wrong_file (options : object) (st st1 : state) (e : exn) :
  acquireScore options st = (inl e, st1) -> e <> Error wrong_file.
Proof.
  unfold_pipeline. intros H.
  repeat case_match; simplify_eq; discriminate.
Qed.

(** With a falsy [hash] the data steps do not fail with it either. *)
Lemma parseBeatmapData_falsy_not_wrong_file (data : bytes) (hash : value)
    (st : state) :
  truthy hash = false ->
  fst (parseBeatmapData data hash st) <> inl (Error wrong_file).
Proof.
  intros H. rewrite parseBeatmapData_eq. cbn. rewrite H. cbn.
  repeat case_match; simplify_eq; cbn; discriminate.
Qed.

Lemma parseScoreData_falsy_not_wrong_file (data : bytes) (hash : value)
    (st : state) :
  truthy hash = false ->
  fst (parseScoreData data hash st) <> inl (Error wrong_file).
Proof.
  intros H. rewrite parseScoreData_eq. cbn. rewrite H. cbn.
  repeat case_match; simplify_eq; cbn; discriminate.
Qed.

(** C10. When [options.hash] is the empty string the hash is not validated:
    in both pipelines the call does exactly what it does on the same options
    without a [hash] property (same outcome, same calls, same world), and it
    does not fail with the hash-mismatch error, whatever the digest of the
    acquired bytes is. *)
Theorem empty_hash_skips_validation (options : object) (st : state) :
  get options "hash" = VStr "" ->
  (parseBeatmap options st = parseBeatmap (delete "hash" options) st
   /\ fst (parseBeatmap options st) <> inl (Error wrong_file))
  /\ (parseScore options st = parseScore (delete "hash" options) st
      /\ fst (parseScore options st) <> inl (Error wrong_file)).
Proof.
  intros Hh. repeat split.
  - rewrite !parseBeatmap_steps, acquireBeatmap_delete_hash, get_delete, Hh.
    unfold by_identifier. rewrite !get_delete_ne by discriminate.
    destruct (acquireBeatmap options st) as [[e|d] st1]; [reflexivity|].
    by rewrite (parseBeatmapData_falsy_hash d (VStr "") VUndefined).
  - rewrite parseBeatmap_steps, Hh.
    destruct (acquireBeatmap options st) as [[e|d] st1] eqn:Ha; cbn.
    + intros [= ->]. by eapply acquireBeatmap_not_wrong_file.
    + pose proof (parseBeatmapData_falsy_not_wrong_file d (VStr "") st1 eq_refl) as Hd.
      destruct (parseBeatmapData d (VStr "") st1) as [[e|r] st2]; cbn in *;
        [assumption | discriminate].
  - rewrite !parseScore_steps, acquireScore_delete_hash, get_delete, Hh.
    destruct (acquireScore options st) as [[e|d] st1]; [reflexivity|].
    by rewrite (parseScoreData_falsy_hash d (VStr "") VUndefined).
  - rewrite parseScore_steps, Hh.
    destruct (acquireScore options st) as [[e|d] st1] eqn:Ha; cbn.
    + intros [= ->]. by eapply acquireScore_not_wrong_file.
    + by apply parseScoreData_falsy_not_wrong_file.
Qed.

End HashGuard.

Section HashCheck.

Context `{C : Collaborators}.

(** A non-empty string that is not the digest trips the guard. *)
Lemma guard_trips (h target : string) :
  h <> "" -> h <> target ->
  truthy (VStr h) && negb (strict_equals (VStr h) (VStr target)) = true.
Proof.
  intros Hne Hdiff. cbn.
  rewrite (proj2 (String.eqb_neq h "")) by assumption.
  rewrite bool_decide_eq_false_2 by congruence. reflexivity.
Qed.

(** A guard that lets the call through to the decoder. *)
Lemma guard_passes (hash : value) (target : string) :
  truthy hash && negb (strict_equals hash (VStr target)) = false ->
  forall h, hash = VStr h -> h = "" \/ h = target.
Proof.
  intros Hg h ->. cbn in Hg.
  destruct (String.eqb_spec h ""); [by left|right]. cbn in Hg.
  apply negb_false_iff, bool_decide_eq_true in Hg. congruence.
Qed.

Lemma never_app (p : event -> bool) (evs evs' : list event) :
  never p evs -> never p evs' -> never p (evs ++ evs').
Proof.
  unfold never. intros H H'. rewrite forallb_app, H, H'. reflexivity.
Qed.

(** C1, as the code has it. In both pipelines, when the acquisition has
    succeeded and [options.hash] is a non-empty string that differs from the
    digest computed over what was acquired (its text for a beatmap, its bytes
    for a score), the call fails with the hash-mismatch error and no decoder
    was called: the calls made are those of the acquisition and the digest. *)
Theorem hash_mismatch_fails_closed (options : object) (h : string) (st : state) :
  get options "hash" = VStr h ->
  h <> "" ->
  (forall data st1,
     acquireBeatmap options st = (inr data, st1) ->
     h <> md5 (OfString (toString data)) ->
     exists evs,
       parseBeatmap options st = (inl (Error wrong_file), logged st (world st1) evs)
       /\ never is_decode evs)
  /\ (forall data st1,
        acquireScore options st = (inr data, st1) ->
        h <> md5 (OfBuffer data) ->
        exists evs,
          parseScore options st = (inl (Error wrong_file), logged st (world st1) evs)
          /\ never is_decode evs).
Proof.
  intros Hh Hne. split; intros data st1 Ha Hdiff.
  - destruct (acquireBeatmap_events _ _ _ _ Ha) as (evs & Ht & Hd & _).
    exists (evs ++ [Md5 (OfString (toString data))]). split.
    + rewrite parseBeatmap_steps, Ha, parseBeatmapData_eq, Hh. cbn zeta.
      rewrite guard_trips by assumption.
      unfold logged. rewrite Ht, <- app_assoc. reflexivity.
    + by apply never_app.
  - destruct (acquireScore_events _ _ _ _ Ha) as (evs & Ht & Hd & _).
    exists (evs ++ [Md5 (OfBuffer data)]). split.
    + rewrite parseScore_steps, Ha, parseScoreData_eq, Hh. cbn zeta.
      rewrite guard_trips by assumption.
      unfold logged. rewrite Ht, <- app_assoc. reflexivity.
    + by apply never_app.
Qed.

(** C2. A successful call of [parseBeatmap] ended with these calls: the
    digest of a text, then the beatmap decoder on that same text, which is the
    text of the acquired bytes; the [hash] returned is that digest.  A
    successful call of [parseScore] ended with the digest of the acquired
    bytes, then the score decoder on those bytes, and returns that digest.
    Nothing here depends on [options.hash] being there; when it is there and
    equals the digest, the returned hash equals it. *)
Theorem returned_hash_is_hash_of_decoded (options : object) (st : state) :
  (forall r st',
     parseBeatmap options st = (inr r, st') ->
     exists data st1,
       acquireBeatmap options st = (inr data, st1)
       /\ trace st' = trace st1 ++ [Md5 (OfString (toString data));
                                    DecodeBeatmap (toString data) false]
       /\ ParsingResult.hash r = md5 (OfString (toString data))
       /\ (forall h, get options "hash" = VStr h ->
                     h = md5 (OfString (toString data)) ->
                     ParsingResult.hash r = h))
  /\ (forall r st',
        parseScore options st = (inr r, st') ->
        exists data st1,
          acquireScore options st = (inr data, st1)
          /\ trace st' = trace st1 ++ [Md5 (OfBuffer data); DecodeScore data false]
          /\ ParsingResult.hash r = md5 (OfBuffer data)
          /\ (forall h, get options "hash" = VStr h ->
                        h = md5 (OfBuffer data) ->
                        ParsingResult.hash r = h)).
Proof.
  split; intros r st'.
  - rewrite parseBeatmap_steps.
    destruct (acquireBeatmap options st) as [[e|data] st1]; [discriminate|].
    rewrite parseBeatmapData_eq. cbn zeta.
    repeat case_match; intros; simplify_eq; cbn;
      (exists data, st1; repeat split; congruence).
  - rewrite parseScore_steps.
    destruct (acquireScore options st) as [[e|data] st1]; [discriminate|].
    rewrite parseScoreData_eq. cbn zeta.
    repeat case_match; intros; simplify_eq; cbn;
      (exists data, st1; repeat split; congruence).
Qed.

(** On success, a non-empty [options.hash] is the hash returned. *)
Lemma returned_hash_is_expected_hash (options : object) (h : string)
    (st st' : state) (r : ParsingResult (IBeatmap BeatmapRest)) :
  get options "hash" = VStr h -> h <> "" ->
  parseBeatmap options st = (inr r, st') ->
  ParsingResult.hash r = h.
Proof.
  intros Hh Hne. rewrite parseBeatmap_steps.
  destruct (acquireBeatmap options st) as [[e|data] st1]; [discriminate|].
  rewrite parseBeatmapData_eq. cbn zeta.
  destruct (truthy _ && _) eqn:Hg; [discriminate|].
  destruct (guard_passes _ _ Hg h Hh) as [->| ->]; [done|].
  repeat case_match; intros; simplify_eq; reflexivity.
Qed.

(** C6. Once the acquisition has succeeded with [data], the next call of the
    beatmap pipeline is the digest of a string, the text of [data], and the
    next call of the score pipeline is the digest of a Buffer, [data] itself;
    neither computes another digest, and on success the hash returned is that
    one. *)
Theorem hash_of_text_versus_hash_of_bytes (options : object) (st : state) :
  (forall data st1,
     acquireBeatmap options st = (inr data, st1) ->
     exists rest,
       trace (snd (parseBeatmap options st))
         = trace st1 ++ Md5 (OfString (toString data)) :: rest
       /\ never is_md5 rest
       /\ forall r st', parseBeatmap options st = (inr r, st') ->
                        ParsingResult.hash r = md5 (OfString (toString data)))
  /\ (forall data st1,
        acquireScore options st = (inr data, st1) ->
        exists rest,
          trace (snd (parseScore options st))
            = trace st1 ++ Md5 (OfBuffer data) :: rest
          /\ never is_md5 rest
          /\ forall r st', parseScore options st = (inr r, st') ->
                           ParsingResult.hash r = md5 (OfBuffer data)).
Proof.
  split; intros data st1 Ha.
  - rewrite parseBeatmap_steps, Ha, parseBeatmapData_eq. cbn zeta.
    repeat case_match; simplify_eq; cbn;
      (eexists; split; [reflexivity|split; [reflexivity|]]);
      intros; simplify_eq; reflexivity.
  - rewrite parseScore_steps, Ha, parseScoreData_eq. cbn zeta.
    repeat case_match; simplify_eq; cbn;
      (eexists; split; [reflexivity|split; [reflexivity|]]);
      intros; simplify_eq; reflexivity.
Qed.

End HashCheck.

(** ** Failed downloads *)

Section DownloadFailed.

Context `{C : Collaborators}.

Lemma prefix_append (s t : string) : String.prefix s (s +:+ t) = true.
Proof.
  induction s as [|c s IH]; simpl; [by destruct t|].
  destruct (Ascii.ascii_dec c c); [assumption|contradiction].
Qed.

Lemma carries_here (s t : string) : carries (s +:+ t) s = true.
Proof.
  pose proof (prefix_append s t) as Hp.
  destruct s, t; simpl in *; try rewrite Hp; reflexivity.
Qed.

Lemma carries_self (s : string) : carries s s = true.
Proof.
  assert (String.prefix s s = true) as Hp.
  { induction s as [|c s IH]; simpl; [reflexivity|].
    destruct (Ascii.ascii_dec c c); [assumption|contradiction]. }
  destruct s; simpl in *; try rewrite Hp; reflexivity.
Qed.

Lemma carries_append (a b needle : string) :
  carries b needle = true -> carries (a +:+ b) needle = true.
Proof.
  intros H. induction a as [|c a IH]; [assumption|].
  change (String c a +:+ b) with (String c (a +:+ b)).
  unfold carries; fold carries. rewrite IH. apply orb_true_r.
Qed.

(** The message of a failed beatmap download holds the identifier, or the URL,
    as the template literal prints it, and the status text of the downloader. *)
Lemma beatmap_id_download_failed_carries (id : value) (status : string) :
  carries (beatmap_id_download_failed id status) (ToString id) = true
  /\ carries (beatmap_id_download_failed id status) status = true.
Proof.
  unfold beatmap_id_download_failed. split.
  - do 2 apply carries_append. apply carries_here.
  - do 6 apply carries_append. apply carries_here.
Qed.

Lemma beatmap_url_download_failed_carries (url : value) (status : string) :
  carries (beatmap_url_download_failed url status) (ToString url) = true
  /\ carries (beatmap_url_download_failed url status) status = true.
Proof.
  unfold beatmap_url_download_failed. split.
  - do 2 apply carries_append. apply carries_here.
  - do 5 apply carries_append. apply carries_self.
Qed.

(** The guard on the result of a beatmap download. *)
Lemma download_guard (savePath : value) (result : DownloadResult) :
  isSuccessful result = false
  \/ (truthy savePath = false /\ buffer result = None) ->
  negb (isSuccessful result)
  || negb (truthy savePath) && negb (bool_decide (is_Some (buffer result)))
  = true.
Proof.
  intros [-> | [-> ->]]; [reflexivity|].
  rewrite bool_decide_eq_false_2 by (intros [? ?]; discriminate).
  apply orb_true_r.
Qed.

Lemma parseBeatmapById_download_failed (id hash savePath : value) (st : state)
    (result : DownloadResult) (w : World) :
  isSuccessful result = false
  \/ (truthy savePath = false /\ buffer result = None) ->
  downloadFile savePath (id_config id savePath) (world st) = (inr result, w) ->
  parseBeatmapById id hash savePath st
  = (inl (Error (beatmap_id_download_failed id (statusText result))),
     logged st w [Download savePath (id_config id savePath)]).
Proof.
  intros Hfail Hd. apply download_guard in Hfail.
  unfold_pipeline; unfold logged. rewrite Hd, Hfail. reflexivity.
Qed.

Lemma parseCustomBeatmap_download_failed (url hash savePath : value) (st : state)
    (result : DownloadResult) (w : World) :
  isSuccessful result = false
  \/ (truthy savePath = false /\ buffer result = None) ->
  downloadFile savePath (url_config url savePath) (world st) = (inr result, w) ->
  parseCustomBeatmap url hash savePath st
  = (inl (Error (beatmap_url_download_failed url (statusText result))),
     logged st w [Download savePath (url_config url savePath)]).
Proof.
  intros Hfail Hd. apply download_guard in Hfail.
  unfold_pipeline; unfold logged. rewrite Hd, Hfail. reflexivity.
Qed.

(** C4, as the code has it. In both beatmap acquisitions, when the downloader reports failure, or
    reports success while no file was persisted (no save path is in force)
    and no buffer came back, the call fails with the download error of that
    acquisition, made from the source and the status text; the download is the
    only call made, so nothing is hashed or decoded as if it were content. *)
Theorem beatmap_download_failed (hash savePath : value) (st : state)
    (result : DownloadResult) :
  isSuccessful result = false
  \/ (truthy savePath = false /\ buffer result = None) ->
  (forall id w,
     downloadFile savePath (id_config id savePath) (world st) = (inr result, w) ->
     parseBeatmapById id hash savePath st
     = (inl (Error (beatmap_id_download_failed id (statusText result))),
        logged st w [Download savePath (id_config id savePath)]))
  /\ (forall url w,
        downloadFile savePath (url_config url savePath) (world st) = (inr result, w) ->
        parseCustomBeatmap url hash savePath st
        = (inl (Error (beatmap_url_download_failed url (statusText result))),
           logged st w [Download savePath (url_config url savePath)])).
Proof.
  intros Hfail. split; intros src w Hd.
  - by apply parseBeatmapById_download_failed.
  - by apply parseCustomBeatmap_download_failed.
Qed.

(** X3. What a failed beatmap download is reported with: in both acquisitions the
    message of the error holds the source, the identifier or the URL as a
    template literal prints it, and the status text of the downloader. *)
Theorem beatmap_download_error_names_source_and_status (hash savePath : value)
    (st : state) (result : DownloadResult) :
  isSuccessful result = false
  \/ (truthy savePath = false /\ buffer result = None) ->
  (forall id w,
     downloadFile savePath (id_config id savePath) (world st) = (inr result, w) ->
     exists message,
       fst (parseBeatmapById id hash savePath st) = inl (Error message)
       /\ carries message (ToString id) = true
       /\ carries message (statusText result) = true)
  /\ (forall url w,
        downloadFile savePath (url_config url savePath) (world st) = (inr result, w) ->
        exists message,
          fst (parseCustomBeatmap url hash savePath st) = inl (Error message)
          /\ carries message (ToString url) = true
          /\ carries message (statusText result) = true).
Proof.
  intros Hfail. split; intros src w Hd; eexists.
  - rewrite (parseBeatmapById_download_failed _ _ _ _ _ _ Hfail Hd).
    split; [reflexivity|]. apply beatmap_id_download_failed_carries.
  - rewrite (parseCustomBeatmap_download_failed _ _ _ _ _ _ Hfail Hd).
    split; [reflexivity|]. apply beatmap_url_download_failed_carries.
Qed.

(** The boundary of the guard: a buffer of length zero is a buffer, and the
    acquisition succeeds with it. *)
Lemma empty_buffer_is_acquired (config : DownloadConfig) (failed : string -> string)
    (savePath : value) (st : state) (result : DownloadResult) (w : World) :
  downloadFile savePath config (world st) = (inr result, w) ->
  isSuccessful result = true -> truthy savePath = false ->
  buffer result = Some [] ->
  acquireBeatmapWith config failed savePath st
  = (inr [], logged st w [Download savePath config]).
Proof.
  intros Hd Hok Hsp Hb. unfold_pipeline. unfold logged.
  rewrite Hd, Hok, Hsp, Hb. reflexivity.
Qed.

End DownloadFailed.

(** ** Identifiers and [parseInt] *)

Lemma digit_value_pretty_N_char (d : N) :
  (d < 10)%N ->
  digit_value (pretty_N_char d) = Some (Z.of_N d)
  /\ is_digit (pretty_N_char d) = true.
Proof.
  intros Hd.
  assert (d = 0 \/ d = 1 \/ d = 2 \/ d = 3 \/ d = 4 \/ d = 5 \/ d = 6
          \/ d = 7 \/ d = 8 \/ d = 9)%N as Hcases by lia.
  repeat (destruct Hcases as [-> | Hcases]); try subst d; split; reflexivity.
Qed.

(** Reading the digits that [pretty_N_go] puts in front of [s]: when what is
    read from [s] on is [acc * a + b], what is read from the digits of [x] on
    is the same with [acc] followed by [x]. *)
Lemma parse_digits_pretty_N_go (x : N) :
  forall (s : string) (a b : Z),
    (0 < x)%N ->
    (forall acc, parse_digits 10 s (Some acc) = Some (acc * a + b)) ->
    exists p, forall acc,
      parse_digits 10 (pretty_N_go x s) acc
      = Some ((default 0 acc * p + Z.of_N x) * a + b).
Proof.
  induction (N.lt_wf_0 x) as [x _ IH]. intros s a b Hx Hs.
  rewrite pretty_N_go_step by assumption.
  assert (x `mod` 10 < 10)%N as Hd by (apply N.mod_lt; discriminate).
  destruct (digit_value_pretty_N_char _ Hd) as [Hdv _].
  pose proof (N.div_mod x 10 ltac:(discriminate)) as Hx10.
  assert (forall acc,
            parse_digits 10 (String (pretty_N_char (x `mod` 10)) s) (Some acc)
            = Some (acc * (10 * a) + (Z.of_N (x `mod` 10) * a + b))) as Htail.
  { intros acc. cbn [parse_digits]. rewrite Hdv.
    rewrite (proj2 (Z.ltb_lt _ _)) by lia. cbn [default].
    rewrite Hs. f_equal. unfold id. ring. }
  destruct (decide (x `div` 10 = 0)%N) as [Hz | Hnz].
  - rewrite Hz, pretty_N_go_0. exists 10. intros acc.
    cbn [parse_digits]. rewrite Hdv.
    rewrite (proj2 (Z.ltb_lt _ _)) by lia.
    rewrite Hs. f_equal.
    replace (Z.of_N x) with (Z.of_N (x `mod` 10)) by lia. reflexivity.
  - destruct (IH (x `div` 10)%N) with (s := String (pretty_N_char (x `mod` 10)) s)
      (a := 10 * a) (b := Z.of_N (x `mod` 10) * a + b) as [p Hp];
      [apply N.div_lt; lia | lia | exact Htail |].
    exists (10 * p). intros acc. rewrite Hp. f_equal.
    replace (Z.of_N x) with (10 * Z.of_N (x `div` 10) + Z.of_N (x `mod` 10)) by lia.
    ring.
Qed.

Lemma digits_only_pretty_N_go (x : N) :
  forall s, digits_only s = true -> digits_only (pretty_N_go x s) = true.
Proof.
  induction (N.lt_wf_0 x) as [x _ IH]. intros s Hs.
  destruct (decide (0 < x)%N) as [Hx | Hx].
  - rewrite pretty_N_go_step by assumption.
    apply IH; [apply N.div_lt; lia|].
    cbn [digits_only]. rewrite Hs.
    assert (x `mod` 10 < 10)%N as Hd by (apply N.mod_lt; discriminate).
    by rewrite (proj2 (digit_value_pretty_N_char _ Hd)).
  - replace x with 0%N by lia. by rewrite pretty_N_go_0.
Qed.

(** The decimal digits of a positive number, and what [parseInt] reads. *)
Lemma pretty_positive_digits (p : positive) :
  digits_only (pretty p) = true
  /\ parse_digits 10 (pretty p) None = Some (Z.pos p).
Proof.
  unfold pretty, pretty_positive, pretty, pretty_N.
  rewrite decide_False by discriminate. split.
  - by apply digits_only_pretty_N_go.
  - destruct (parse_digits_pretty_N_go (N.pos p) "" 1 0) as [q Hq];
      [reflexivity | intros acc; cbn; f_equal; ring |].
    rewrite Hq. cbn [default]. f_equal. cbn [Z.of_N]. ring.
Qed.

Lemma is_digit_not_white_space (c : ascii) :
  is_digit c = true ->
  is_white_space c = false
  /\ (forall c2, is_white_space2 c c2 = false)
  /\ (forall c2 c3, is_white_space3 c c2 c3 = false).
Proof.
  unfold is_digit, is_white_space, is_white_space2, is_white_space3.
  intros [H1 H2]%andb_true_iff. apply Z.leb_le in H1, H2.
  assert (forall n, 57 < n -> (char_code c =? n) = false) as Hne
    by (intros n Hn; apply Z.eqb_neq; lia).
  repeat split; intros; cbv zeta; rewrite ?Hne by lia; try reflexivity.
  apply orb_false_iff. split.
  - apply andb_false_iff. right. apply Z.leb_gt. lia.
  - apply Z.eqb_neq. lia.
Qed.

(** A string that does not start with white space is left as it is. *)
Lemma trim_start_keeps (c : ascii) (s : string) :
  is_white_space c = false ->
  (forall c2, is_white_space2 c c2 = false) ->
  (forall c2 c3, is_white_space3 c c2 c3 = false) ->
  trim_start (String c s) = String c s.
Proof.
  intros H1 H2 H3.
  destruct s as [|c2 [|c3 s]]; cbn [trim_start]; rewrite ?H1, ?H2, ?H3;
    reflexivity.
Qed.

Lemma trim_start_digits (s : string) :
  digits_only s = true -> trim_start s = s.
Proof.
  destruct s as [|c s]; [reflexivity|]. cbn [digits_only].
  intros [Hc _]%andb_true_iff.
  destruct (is_digit_not_white_space c Hc) as (H1 & H2 & H3).
  by apply trim_start_keeps.
Qed.

Lemma sign_of_digits (s : string) :
  digits_only s = true ->
  match s with
  | String "-" r => (-1, r)
  | String "+" r => (1, r)
  | _ => (1, s)
  end = (1, s).
Proof.
  destruct s as [|c s]; [reflexivity|]. cbn [digits_only].
  intros [Hc _]%andb_true_iff.
  destruct c as [[] [] [] [] [] [] [] []]; try discriminate Hc; reflexivity.
Qed.

Lemma radix_of_digits (s : string) :
  digits_only s = true ->
  match s with
  | String "0" (String "x" r) | String "0" (String "X" r) => (16, r)
  | _ => (10, s)
  end = (10, s).
Proof.
  destruct s as [|c s]; [reflexivity|]. cbn [digits_only].
  intros [Hc Hs]%andb_true_iff.
  destruct c as [[] [] [] [] [] [] [] []]; try discriminate Hc; try reflexivity.
  destruct s as [|c' s]; [reflexivity|]. cbn [digits_only] in Hs.
  apply andb_true_iff in Hs as [Hc' _].
  destruct c' as [[] [] [] [] [] [] [] []]; try discriminate Hc'; reflexivity.
Qed.

Lemma safe_integer (z : Z) : Z.abs z <= 9007199254740991 -> safe z = true.
Proof.
  intros Hz. unfold safe. apply Z.ltb_lt.
  change (2 ^ 53) with 9007199254740992. lia.
Qed.

(** [parseInt] of a safe integer, and of the string of its decimal digits, is
    that integer. *)
Lemma parseInt_decimal (z : Z) :
  Z.abs z <= 9007199254740991 ->
  parseInt (VNum (Int z)) = Int z /\ parseInt (VStr (pretty z)) = Int z.
Proof.
  intros Hz. pose proof (safe_integer z Hz) as Hsafe.
  assert (parseInt (VStr (pretty z)) = Int z) as H.
  { unfold parseInt. cbn [ToString].
    destruct z as [|p|p]; [reflexivity| |];
      destruct (pretty_positive_digits p) as [Hd Hp].
    - change (pretty (Z.pos p)) with (pretty p).
      rewrite trim_start_digits, sign_of_digits, radix_of_digits, Hp by assumption.
      change (Z.pos p =? 0) with false. change (1 * Z.pos p) with (Z.pos p).
      cbv iota. unfold number_of_integer. by rewrite Hsafe.
    - change (pretty (Z.neg p)) with (String "-" (pretty p)).
      rewrite trim_start_keeps by (intros; reflexivity).
      rewrite radix_of_digits, Hp by assumption.
      change (Z.pos p =? 0) with false. change (-1 * Z.pos p) with (Z.neg p).
      cbv iota. unfold number_of_integer. by rewrite Hsafe. }
  split; [|exact H].
  unfold parseInt in *. cbn [ToString number_to_string] in *.
  by rewrite Hsafe.
Qed.

(** ** The beatmap id and the two acquisition modes *)

Section Modes.

Context `{C : Collaborators}.

(** C7. After a successful call of [parseBeatmap], let [decoded] be what the
    decoder returned on the text of the acquired bytes.  In by-identifier
    mode, if the beatmap id of [decoded] is falsy the beatmap returned is
    [decoded] with the number that [parseInt] reads off the identifier as its
    beatmap id: for the integer [z] of the safe range, given as a number or as
    the string of its decimal digits, that is [z].  If the beatmap id of
    [decoded] is truthy the beatmap returned is [decoded]; in by-URL mode the
    beatmap returned is [decoded], whatever its beatmap id. *)
Theorem beatmapId_backfill (options : object) (st st' : state)
    (r : ParsingResult (IBeatmap BeatmapRest)) :
  parseBeatmap options st = (inr r, st') ->
  exists data st1 decoded,
    acquireBeatmap options st = (inr data, st1)
    /\ decodeFromString (toString data) false (world st1) = (inr decoded, world st')
    /\ (by_identifier options = true ->
        truthy (beatmapId decoded) = false ->
        ParsingResult.data r
        = {| beatmapId := VNum (parseInt (get options "beatmapId"));
             beatmap_rest := beatmap_rest decoded |}
        /\ forall z,
             Z.abs z <= 9007199254740991 ->
             get options "beatmapId" = VNum (Int z)
             \/ get options "beatmapId" = VStr (pretty z) ->
             beatmapId (ParsingResult.data r) = VNum (Int z))
    /\ (by_identifier options = true ->
        truthy (beatmapId decoded) = true ->
        ParsingResult.data r = decoded)
    /\ (by_identifier options = false -> ParsingResult.data r = decoded).
Proof.
  rewrite parseBeatmap_steps.
  destruct (acquireBeatmap options st) as [[e|data] st1]; [discriminate|].
  rewrite parseBeatmapData_eq. cbn zeta.
  destruct (truthy _ && _); [discriminate|].
  destruct (decodeFromString _ _ _) as [[t|decoded] w] eqn:Hdec; [discriminate|].
  intros [= <- <-]. exists data, st1, decoded.
  split; [reflexivity|]. split; [exact Hdec|].
  unfold backfill_beatmapId.
  destruct (by_identifier options); cbn;
    repeat split; intros; try discriminate; try reflexivity;
    destruct (truthy (beatmapId decoded)); try congruence.
  cbn. f_equal.
  match goal with
  | Hz : Z.abs _ <= _, Hid : _ \/ _ |- _ =>
      destruct Hid as [-> | ->]; by apply parseInt_decimal
  end.
Qed.

(** C8, as the code has it. A beatmap request with both a beatmap identifier
    and a file URL is not refused: the identifier takes precedence.  The call
    does what it does on the same options without the [fileURL] property, and
    it makes exactly one download, by identifier: the URL does not reach the
    downloader. *)
Theorem identifier_takes_precedence (options : object) (st : state) :
  by_identifier options = true ->
  typeof (get options "fileURL") = "string" ->
  parseBeatmap options st = parseBeatmap (delete "fileURL" options) st
  /\ exists rest,
       trace (snd (parseBeatmap options st))
       = trace st ++ Download (get options "savePath")
                       (id_config (get options "beatmapId") (get options "savePath"))
                     :: rest
       /\ never is_download rest.
Proof.
  intros Hid _. split.
  - unfold parseBeatmap. rewrite !get_delete_ne by discriminate.
    unfold by_identifier in Hid. rewrite Hid. reflexivity.
  - unfold by_identifier in Hid. unfold_pipeline. rewrite Hid. cbn.
    repeat (case_match; simplify_eq; cbn in * ); rewrite <- ?app_assoc; cbn;
      (eexists; split; [reflexivity|reflexivity]).
Qed.

End Modes.

(** ** The order of the calls *)

Section Order.

Context `{C : Collaborators}.

Ltac close_trace :=
  rewrite <- ?app_assoc; cbn;
  first [ by (eexists; split; [reflexivity | reflexivity])
        | by (exists []; rewrite app_nil_r; split; reflexivity) ].

(** X1. The calls of one run follow the steps of the pipeline, each at most once:
    the download, the file read back, the digest, the decoder.  Nothing is
    tried again and no step is gone back to. *)
Theorem calls_follow_the_pipeline (options : object) (st : state) :
  (exists evs,
     trace (snd (parseBeatmap options st)) = trace st ++ evs
     /\ ascending (map phase evs) = true)
  /\ (exists evs,
        trace (snd (parseScore options st)) = trace st ++ evs
        /\ ascending (map phase evs) = true).
Proof.
  split; unfold_pipeline;
    repeat (case_match; simplify_eq; cbn in * ); close_trace.
Qed.

(** X2. Both decoders are called with their flag off: no storyboard is decoded
    with a beatmap, no replay frames with a score. *)
Theorem decoders_are_called_with_flag_off (options : object) (st : state) :
  (exists evs,
     trace (snd (parseBeatmap options st)) = trace st ++ evs
     /\ forallb flag_off evs = true)
  /\ (exists evs,
        trace (snd (parseScore options st)) = trace st ++ evs
        /\ forallb flag_off evs = true).
Proof.
  split; unfold_pipeline;
    repeat (case_match; simplify_eq; cbn in * ); close_trace.
Qed.

End Order.

(** ** What decides the outcome *)

Section Outcomes.

Context `{C : Collaborators}.

Lemma guard_accepts (hash : value) (target : string) :
  accepted hash target ->
  truthy hash && negb (strict_equals hash (VStr target)) = false.
Proof.
  intros [H | ->]; [by rewrite H|].
  cbn. rewrite bool_decide_eq_true_2 by reflexivity. apply andb_false_r.
Qed.

Lemma guard_rejects (hash : value) (target : string) :
  truthy hash && negb (strict_equals hash (VStr target)) = true ->
  truthy hash = true /\ hash <> VStr target.
Proof.
  intros [Ht Hs]%andb_true_iff. split; [assumption|].
  intros ->. cbn in Hs. rewrite bool_decide_eq_true_2 in Hs by reflexivity.
  discriminate.
Qed.

(** X4. Once the acquisition has succeeded and the hash guard lets the call
    through ([options.hash] is falsy or is the digest), the outcome is the
    decoder's: what the decoder throws is what the call fails with, as it is,
    and what it returns is returned with the digest, after the backfill of the
    beatmap id in by-identifier mode.  The digest and the decoder are the only
    calls made after the acquisition. *)
Theorem outcome_is_the_decoders (options : object) (st : state) :
  (forall data st1,
     acquireBeatmap options st = (inr data, st1) ->
     accepted (get options "hash") (md5 (OfString (toString data))) ->
     parseBeatmap options st
     = match decodeFromString (toString data) false (world st1) with
       | (inl t, w) =>
           (inl (Rethrown t),
            logged st1 w [Md5 (OfString (toString data));
                          DecodeBeatmap (toString data) false])
       | (inr decoded, w) =>
           (inr (beatmap_result options decoded (md5 (OfString (toString data)))),
            logged st1 w [Md5 (OfString (toString data));
                          DecodeBeatmap (toString data) false])
       end)
  /\ (forall data st1,
        acquireScore options st = (inr data, st1) ->
        accepted (get options "hash") (md5 (OfBuffer data)) ->
        parseScore options st
        = match decodeFromBuffer data false (world st1) with
          | (inl t, w) =>
              (inl (Rethrown t),
               logged st1 w [Md5 (OfBuffer data); DecodeScore data false])
          | (inr decoded, w) =>
              (inr {| ParsingResult.data := decoded;
                      ParsingResult.hash := md5 (OfBuffer data) |},
               logged st1 w [Md5 (OfBuffer data); DecodeScore data false])
          end).
Proof.
  split; intros data st1 Ha Hacc.
  - rewrite parseBeatmap_steps, Ha, parseBeatmapData_eq. cbn zeta.
    rewrite (guard_accepts _ _ Hacc). unfold beatmap_result.
    destruct (decodeFromString _ _ _) as [[t|decoded] w]; [reflexivity|].
    destruct (by_identifier options); reflexivity.
  - rewrite parseScore_steps, Ha, parseScoreData_eq. cbn zeta.
    rewrite (guard_accepts _ _ Hacc). reflexivity.
Qed.

(** X5. The hash-mismatch error has one cause.  When a call fails with it, the
    acquisition had succeeded, [options.hash] is truthy and is not the digest
    of what was acquired, and the digest is the last call made: a matching
    hash, or none, is never reported as a mismatch. *)
Theorem hash_mismatch_has_one_cause (options : object) (st st' : state) :
  (parseBeatmap options st = (inl (Error wrong_file), st') ->
   exists data st1,
     acquireBeatmap options st = (inr data, st1)
     /\ truthy (get options "hash") = true
     /\ get options "hash" <> VStr (md5 (OfString (toString data)))
     /\ st' = logged st1 (world st1) [Md5 (OfString (toString data))])
  /\ (parseScore options st = (inl (Error wrong_file), st') ->
      exists data st1,
        acquireScore options st = (inr data, st1)
        /\ truthy (get options "hash") = true
        /\ get options "hash" <> VStr (md5 (OfBuffer data))
        /\ st' = logged st1 (world st1) [Md5 (OfBuffer data)]).
Proof.
  split.
  - rewrite parseBeatmap_steps.
    destruct (acquireBeatmap options st) as [[e|data] st1] eqn:Ha.
    { intros [= -> _]. by destruct (acquireBeatmap_not_wrong_file _ _ _ _ Ha). }
    rewrite parseBeatmapData_eq. cbn zeta.
    destruct (truthy _ && _) eqn:Hg.
    + intros [= <-]. apply guard_rejects in Hg as [Ht Hne].
      by exists data, st1.
    + destruct (decodeFromString _ _ _) as [[t|decoded] w]; discriminate.
  - rewrite parseScore_steps.
    destruct (acquireScore options st) as [[e|data] st1] eqn:Ha.
    { intros [= -> _]. by destruct (acquireScore_not_wrong_file _ _ _ _ Ha). }
    rewrite parseScoreData_eq. cbn zeta.
    destruct (truthy _ && _) eqn:Hg.
    + intros [= <-]. apply guard_rejects in Hg as [Ht Hne].
      by exists data, st1.
    + destruct (decodeFromBuffer _ _ _) as [[t|decoded] w]; discriminate.
Qed.

(** X6. With a save path in force and a download reported successful, what is
    hashed and decoded is the file read back from [result.filePath]:
    [result.buffer] is not looked at, and when the file cannot be read the
    call fails with what [readFileSync] threw, the download and the read
    being the only calls made. *)
Theorem persisted_file_is_what_is_decoded (options : object) (st : state)
    (result : DownloadResult) (w : World) :
  has_source options = true ->
  truthy (get options "savePath") = true ->
  downloadFile (get options "savePath") (source_config options) (world st)
  = (inr result, w) ->
  isSuccessful result = true ->
  (forall file w',
     readFileSync (filePath result) w = (inr file, w') ->
     acquireBeatmap options st
     = (inr file,
        logged st w' [Download (get options "savePath") (source_config options);
                      ReadFile (filePath result)]))
  /\ (forall t w',
        readFileSync (filePath result) w = (inl t, w') ->
        parseBeatmap options st
        = (inl (Rethrown t),
           logged st w' [Download (get options "savePath") (source_config options);
                         ReadFile (filePath result)])).
Proof.
  unfold has_source, source_config. intros Hsrc Hsp Hd Hok.
  split; intros x w' Hr; [|rewrite parseBeatmap_steps];
    unfold_pipeline; unfold logged;
    destruct (bool_decide (typeof (get options "beatmapId") = "string")
              || bool_decide (typeof (get options "beatmapId") = "number"));
    cbn in *; rewrite ?Hsrc, Hd, Hok, Hsp; cbn; rewrite Hr; cbn;
    rewrite <- ?app_assoc; reflexivity.
Qed.

(** X7. The empty string as save path: the downloader is told to save (the
    save path is a string), but no file is read back (the save path is
    falsy): the acquisition succeeds with the buffer when the download is
    reported successful with one, and fails with the download error
    otherwise, the download being the only call made. *)
Theorem empty_save_path_saves_and_uses_the_buffer (options : object) (st : state)
    (result : DownloadResult) (w : World) :
  has_source options = true ->
  get options "savePath" = VStr "" ->
  downloadFile (VStr "") (source_config options) (world st) = (inr result, w) ->
  cfg_save (source_config options) = true
  /\ acquireBeatmap options st
     = (match isSuccessful result, buffer result with
        | true, Some b => inr b
        | _, _ => inl (Error (download_failed_message options (statusText result)))
        end,
        logged st w [Download (VStr "") (source_config options)]).
Proof.
  unfold has_source, source_config, download_failed_message.
  intros Hsrc Hsp Hd. unfold_pipeline; unfold logged. rewrite !Hsp in *.
  destruct (bool_decide (typeof (get options "beatmapId") = "string")
            || bool_decide (typeof (get options "beatmapId") = "number"));
    cbn in *; rewrite ?Hsrc, Hd; cbn;
    destruct (isSuccessful result), (buffer result); cbn; split; reflexivity.
Qed.

(** X8. The errors the pipeline makes itself are raised before any decoding.
    When [parseBeatmap] fails with an [Error] of its own, the message is the
    missing-source one, the download one of the request or the wrong-file one,
    and no decoder was called; likewise for [parseScore] with its three
    messages.  After a decoder call the only failure is the decoder's. *)
Theorem own_errors_precede_decoding (options : object) (st : state) :
  (forall message st',
     parseBeatmap options st = (inl (Error message), st') ->
     (message = no_beatmap_source
      \/ message = wrong_file
      \/ exists status, message = download_failed_message options status)
     /\ exists evs, trace st' = trace st ++ evs /\ never is_decode evs)
  /\ (forall message st',
        parseScore options st = (inl (Error message), st') ->
        (message = no_replay_source
         \/ message = replay_download_failed
         \/ message = wrong_file)
        /\ exists evs, trace st' = trace st ++ evs /\ never is_decode evs).
Proof.
  split; intros message st'; unfold download_failed_message;
    unfold_pipeline; intros H;
    repeat (case_match; simplify_eq; cbn in * );
    (split; [ eauto 6
            | rewrite <- ?app_assoc;
              first [ by (eexists; split; [reflexivity | reflexivity])
                    | by (exists []; rewrite app_nil_r; split; reflexivity) ] ]).
Qed.

(** X9. [parseScore] never persists and never reads a file.  Setting, or
    changing, any property other than [fileURL] and [hash] ([savePath],
    [lifeBar], [replayURL], ...) changes nothing of a call, and the calls made
    besides the digest and the decoder are at most downloads into a buffer:
    destination [''], [save: false], type replay, the URL of [fileURL]. *)
Theorem parseScore_never_persists (options : object) (st : state) :
  (forall k v, k <> "fileURL" -> k <> "hash" ->
               parseScore (<[k := v]> options) st = parseScore options st)
  /\ exists evs,
       trace (snd (parseScore options st)) = trace st ++ evs
       /\ Forall (replay_call (get options "fileURL")) evs.
Proof.
  split.
  - intros k v Hu Hh. unfold parseScore, get.
    rewrite !lookup_insert_ne by assumption. reflexivity.
  - unfold_pipeline.
    repeat (case_match; simplify_eq; cbn in * ); rewrite <- ?app_assoc; cbn;
      first [ by (eexists; split; [reflexivity | repeat constructor])
            | by (exists []; rewrite app_nil_r; split; [reflexivity|constructor]) ].
Qed.

(** X11. What the downloader throws is what the call fails with: the
    exception is passed on as it is, not turned into the download error, and
    the download is the only call made. *)
Theorem download_exception_is_passed_on (options : object) (st : state)
    (t : Thrown) (w : World) :
  (has_source options = true ->
   downloadFile (get options "savePath") (source_config options) (world st)
   = (inl t, w) ->
   parseBeatmap options st
   = (inl (Rethrown t),
      logged st w [Download (get options "savePath") (source_config options)]))
  /\ (typeof (get options "fileURL") = "string" ->
      downloadFile (VStr "") (replay_config (get options "fileURL")) (world st)
      = (inl t, w) ->
      parseScore options st
      = (inl (Rethrown t),
         logged st w [Download (VStr "") (replay_config (get options "fileURL"))])).
Proof.
  unfold has_source, source_config. split.
  - intros Hsrc Hd. unfold_pipeline; unfold logged.
    destruct (bool_decide (typeof (get options "beatmapId") = "string")
              || bool_decide (typeof (get options "beatmapId") = "number"));
      cbn in *; rewrite ?Hsrc, Hd; reflexivity.
  - intros Hurl Hd. unfold_pipeline; unfold logged.
    rewrite bool_decide_eq_true_2 by assumption. rewrite Hd. reflexivity.
Qed.

(** X12. What the downloader is asked.  A beatmap request that names a source
    makes exactly one download, as its first call: the destination is
    [savePath] as given, saving is asked for exactly when [savePath] is a
    string, and the configuration names one source only, the identifier (a
    string or a number) in by-identifier mode, the URL (a string) otherwise. *)
Theorem beatmap_download_request (options : object) (st : state) :
  has_source options = true ->
  (exists rest,
     trace (snd (parseBeatmap options st))
     = trace st ++ Download (get options "savePath") (source_config options) :: rest
     /\ never is_download rest)
  /\ (cfg_save (source_config options) = true
      <-> typeof (get options "savePath") = "string")
  /\ (if by_identifier options
      then cfg_id (source_config options) = get options "beatmapId"
           /\ (typeof (get options "beatmapId") = "string"
               \/ typeof (get options "beatmapId") = "number")
           /\ cfg_url (source_config options) = VUndefined
      else cfg_url (source_config options) = get options "fileURL"
           /\ typeof (get options "fileURL") = "string"
           /\ cfg_id (source_config options) = VUndefined).
Proof.
  unfold has_source, source_config. intros Hsrc. split; [|split].
  - unfold_pipeline.
    destruct (bool_decide (typeof (get options "beatmapId") = "string")
              || bool_decide (typeof (get options "beatmapId") = "number"));
      cbn in Hsrc; rewrite ?Hsrc; cbn;
      repeat (case_match; simplify_eq; cbn in * ); rewrite <- ?app_assoc; cbn;
      (eexists; split; [reflexivity|reflexivity]).
  - destruct (by_identifier options); cbn; apply bool_decide_eq_true.
  - unfold by_identifier in *.
    destruct (bool_decide (typeof (get options "beatmapId") = "string")
              || bool_decide (typeof (get options "beatmapId") = "number"))
      eqn:Hid; cbn in *.
    + repeat split.
      apply orb_true_iff in Hid as [H|H]; apply bool_decide_eq_true in H; auto.
    + repeat split. by apply bool_decide_eq_true in Hsrc.
Qed.

(** X13. Each pipeline keeps to its own collaborators: a [parseBeatmap] run
    never calls the score decoder and never hashes a Buffer; a [parseScore]
    run never calls the beatmap decoder, never hashes a string and never
    reads a file. *)
Theorem each_pipeline_calls_its_own_decoder (options : object) (st : state) :
  (exists evs,
     trace (snd (parseBeatmap options st)) = trace st ++ evs
     /\ forallb beatmap_call evs = true)
  /\ (exists evs,
        trace (snd (parseScore options st)) = trace st ++ evs
        /\ forallb score_call evs = true).
Proof.
  split; unfold_pipeline;
    repeat (case_match; simplify_eq; cbn in * ); rewrite <- ?app_assoc; cbn;
    first [ by (eexists; split; [reflexivity | reflexivity])
          | by (exists []; rewrite app_nil_r; split; reflexivity) ].
Qed.

End Outcomes.

(** ** Integer identifiers *)

Section Identifier.

Context `{C : Collaborators}.

(** X10. An integer identifier survives the backfill.  When the request names
    the beatmap by an integer [z] of the safe range, as a number or as the
    string of its decimal digits, a successful call returns what the decoder
    returned with [z] itself as beatmap id wherever the decoded id was falsy
    ([parseInt] reads back exactly the digits that were printed). *)
Theorem integer_identifier_is_backfilled_as_itself (z : Z) (options : object)
    (st st' : state) (r : ParsingResult (IBeatmap BeatmapRest)) :
  Z.abs z <= 9007199254740991 ->
  get options "beatmapId" = VNum (Int z)
  \/ get options "beatmapId" = VStr (pretty z) ->
  parseBeatmap options st = (inr r, st') ->
  exists data st1 decoded,
    acquireBeatmap options st = (inr data, st1)
    /\ decodeFromString (toString data) false (world st1) = (inr decoded, world st')
    /\ ParsingResult.data r = backfill_beatmapId decoded (VNum (Int z)).
Proof.
  intros Hz Hid.
  assert (by_identifier options = true /\ parseInt (get options "beatmapId") = Int z)
    as [Hby Hparse].
  { unfold by_identifier.
    destruct Hid as [-> | ->]; (split; [reflexivity | by apply parseInt_decimal]). }
  rewrite parseBeatmap_steps, Hby, Hparse.
  destruct (acquireBeatmap options st) as [[e|data] st1]; [discriminate|].
  rewrite parseBeatmapData_eq. cbn zeta.
  destruct (truthy _ && _); [discriminate|].
  destruct (decodeFromString _ _ _) as [[t|decoded] w] eqn:Hdec; [discriminate|].
  intros [= <- <-]. by exists data, st1, decoded.
Qed.

End Identifier.

(** ** The runs of the examples *)

(** C5, at the scenario of the specification: the score request
    [{fileURL: "https://x/replay.osr"}], the downloader answering
    [{isSuccessful: false, statusText: "404"}].  The call fails with
    [Error('Replay failed to download!')], a message that holds neither the
    status text nor the URL. *)
Theorem replay_download_error_carries_nothing :
  @parseScore (reference not_found) replay_request (initial not_found)
  = (inl (Error "Replay failed to download!"),
     after not_found
       [Download (VStr "") (replay_config (VStr "https://x/replay.osr"))])
  /\ carries "Replay failed to download!" "404" = false
  /\ carries "Replay failed to download!" "https://x/replay.osr" = false.
Proof. repeat split; reflexivity. Qed.

(** The same answer to a beatmap download, by identifier: the error holds the
    identifier and the status text. *)
Example beatmap_download_error_carries_status :
  exists message st',
    @parseBeatmap (reference not_found) by_id_request (initial not_found)
    = (inl (Error message), st')
    /\ carries message "404" = true
    /\ carries message "1234567" = true.
Proof. do 2 eexists. repeat split; reflexivity. Qed.

(** The scenario of the specification: request [{beatmapId: 1234567}], no
    hash, no save path; the downloader returns the file in a buffer and the
    decoder finds no beatmap id.  The result holds the identifier as beatmap
    id and the digest of the text. *)
Example parseBeatmap_by_id_served :
  @parseBeatmap (reference served) by_id_request (initial served)
  = (inr {| ParsingResult.data := decoded_file (VNum (Int 1234567));
            ParsingResult.hash := osu_file_md5 |},
     after served
       [Download VUndefined (id_config (VNum (Int 1234567)) VUndefined);
        Md5 (OfString "osu file format v14");
        DecodeBeatmap "osu file format v14" false]).
Proof. reflexivity. Qed.

(** With a save path the file is persisted, read back and decoded. *)
Example parseBeatmap_by_id_saved :
  exists st',
    @parseBeatmap (reference saved)
       (<["savePath" := VStr "./cache/1234567.osu"]> by_id_request) (initial saved)
    = (inr {| ParsingResult.data := decoded_file (VNum (Int 1234567));
              ParsingResult.hash := osu_file_md5 |}, st')
    /\ trace st'
       = [Download (VStr "./cache/1234567.osu")
            (id_config (VNum (Int 1234567)) (VStr "./cache/1234567.osu"));
          ReadFile (Some "./cache/1234567.osu");
          Md5 (OfString "osu file format v14");
          DecodeBeatmap "osu file format v14" false].
Proof. eexists. split; reflexivity. Qed.

(** A replay is hashed as bytes and handed to the score decoder as bytes. *)
Example parseScore_served :
  @parseScore (reference served) replay_request (initial served)
  = (inr {| ParsingResult.data := osu_file; ParsingResult.hash := osu_file_md5 |},
     after served
       [Download (VStr "") (replay_config (VStr "https://x/replay.osr"));
        Md5 (OfBuffer osu_file);
        DecodeScore osu_file false]).
Proof. reflexivity. Qed.

(** The scenario of the specification with an expected hash that is not the
    digest: the call fails after the digest, and the decoder is not called. *)
Example parseBeatmap_wrong_hash :
  @parseBeatmap (reference served) (with_hash "deadbeef" by_id_request)
     (initial served)
  = (inl (Error "Wrong beatmap file!"),
     after served
       [Download VUndefined (id_config (VNum (Int 1234567)) VUndefined);
        Md5 (OfString "osu file format v14")]).
Proof. reflexivity. Qed.

(** A beatmap id found in the file is kept. *)
Example parseBeatmap_keeps_decoded_id :
  fst (@parseBeatmap (reference served_with_id) by_id_request
         (initial served_with_id))
  = inr {| ParsingResult.data := decoded_file (VNum (Int 42));
           ParsingResult.hash := osu_file_md5 |}.
Proof. reflexivity. Qed.

(** By URL the beatmap id is left as the decoder found it, here 0. *)
Example parseBeatmap_by_url_does_not_backfill :
  fst (@parseBeatmap (reference served) {[ "fileURL" := VStr "https://x/map.osu" ]}
         (initial served))
  = inr {| ParsingResult.data := decoded_file (VNum (Int 0));
           ParsingResult.hash := osu_file_md5 |}.
Proof. reflexivity. Qed.

(** An identifier given as a string is backfilled as the number it spells. *)
Example parseBeatmap_string_id :
  fst (@parseBeatmap (reference served) {[ "beatmapId" := VStr "1234567" ]}
         (initial served))
  = inr {| ParsingResult.data := decoded_file (VNum (Int 1234567));
           ParsingResult.hash := osu_file_md5 |}.
Proof. reflexivity. Qed.

(** On a buffer that is not well-formed UTF-8 the two pipelines return
    different hashes for the same bytes. *)
Example hashes_differ_on_ill_formed_bytes :
  md5_hex (OfString (utf8_toString [Byte.xff])) = "9b759040321a408a5c7768b4511287a6"
  /\ md5_hex (OfBuffer [Byte.xff]) = "00594fd4f42ba43fc1ca0427a0576295".
Proof. split; vm_compute; reflexivity. Qed.

(** ** The theorems at the examples *)

(** C1 as the specification words it fails on an empty [hash]: the hash is
    supplied, it differs from the digest of the acquired file, and the call
    goes on to the decoder and succeeds. *)
Lemma empty_hash_is_not_compared :
  get (with_hash "" by_id_request) "hash" = VStr ""
  /\ @acquireBeatmap (reference served) (with_hash "" by_id_request) (initial served)
     = (inr osu_file,
        after served
          [Download VUndefined (id_config (VNum (Int 1234567)) VUndefined)])
  /\ "" <> md5_hex (OfString (utf8_toString osu_file))
  /\ @parseBeatmap (reference served) (with_hash "" by_id_request) (initial served)
     = (inr {| ParsingResult.data := decoded_file (VNum (Int 1234567));
               ParsingResult.hash := osu_file_md5 |},
        after served
          [Download VUndefined (id_config (VNum (Int 1234567)) VUndefined);
           Md5 (OfString "osu file format v14");
           DecodeBeatmap "osu file format v14" false]).
Proof.
  split; [reflexivity|]. split; [reflexivity|]. split; [|reflexivity].
  vm_compute. discriminate.
Qed.

Lemma hash_mismatch_fails_closed_witness :
  (exists evs,
     @parseBeatmap (reference served) (with_hash "deadbeef" by_id_request)
        (initial served)
     = (inl (Error wrong_file), logged (initial served) ∅ evs)
     /\ never is_decode evs)
  /\ (exists evs,
        @parseScore (reference served) (with_hash "deadbeef" replay_request)
           (initial served)
        = (inl (Error wrong_file), logged (initial served) ∅ evs)
        /\ never is_decode evs).
Proof.
  split.
  - apply (proj1 (hash_mismatch_fails_closed (C := reference served)
                    (with_hash "deadbeef" by_id_request) "deadbeef" (initial served)
                    eq_refl ltac:(discriminate))
             osu_file
             (after served
                [Download VUndefined (id_config (VNum (Int 1234567)) VUndefined)]));
      [reflexivity | vm_compute; discriminate].
  - apply (proj2 (hash_mismatch_fails_closed (C := reference served)
                    (with_hash "deadbeef" replay_request) "deadbeef" (initial served)
                    eq_refl ltac:(discriminate))
             osu_file
             (after served
                [Download (VStr "") (replay_config (VStr "https://x/replay.osr"))]));
      [reflexivity | vm_compute; discriminate].
Defined.

Lemma returned_hash_is_hash_of_decoded_witness :
  (exists data st1,
     @acquireBeatmap (reference served) (with_hash osu_file_md5 by_id_request)
        (initial served) = (inr data, st1)
     /\ [Download VUndefined (id_config (VNum (Int 1234567)) VUndefined);
         Md5 (OfString "osu file format v14");
         DecodeBeatmap "osu file format v14" false]
        = trace st1 ++ [Md5 (OfString (utf8_toString data));
                        DecodeBeatmap (utf8_toString data) false]
     /\ osu_file_md5 = md5_hex (OfString (utf8_toString data))
     /\ (forall h, get (with_hash osu_file_md5 by_id_request) "hash" = VStr h ->
                   h = md5_hex (OfString (utf8_toString data)) ->
                   osu_file_md5 = h))
  /\ (exists data st1,
        @acquireScore (reference served) replay_request (initial served)
        = (inr data, st1)
        /\ [Download (VStr "") (replay_config (VStr "https://x/replay.osr"));
            Md5 (OfBuffer osu_file); DecodeScore osu_file false]
           = trace st1 ++ [Md5 (OfBuffer data); DecodeScore data false]
        /\ osu_file_md5 = md5_hex (OfBuffer data)
        /\ (forall h, get replay_request "hash" = VStr h ->
                      h = md5_hex (OfBuffer data) -> osu_file_md5 = h)).
Proof.
  split.
  - apply (proj1 (returned_hash_is_hash_of_decoded (C := reference served)
                    (with_hash osu_file_md5 by_id_request) (initial served))
             {| ParsingResult.data := decoded_file (VNum (Int 1234567));
                ParsingResult.hash := osu_file_md5 |}
             (after served
                [Download VUndefined (id_config (VNum (Int 1234567)) VUndefined);
                 Md5 (OfString "osu file format v14");
                 DecodeBeatmap "osu file format v14" false])).
    reflexivity.
  - apply (proj2 (returned_hash_is_hash_of_decoded (C := reference served)
                    replay_request (initial served))
             {| ParsingResult.data := osu_file; ParsingResult.hash := osu_file_md5 |}
             (after served
                [Download (VStr "") (replay_config (VStr "https://x/replay.osr"));
                 Md5 (OfBuffer osu_file); DecodeScore osu_file false])).
    reflexivity.
Defined.

Lemma empty_hash_skips_validation_witness :
  (@parseBeatmap (reference served) (with_hash "" by_id_request) (initial served)
   = @parseBeatmap (reference served) (delete "hash" (with_hash "" by_id_request))
       (initial served)
   /\ fst (@parseBeatmap (reference served) (with_hash "" by_id_request)
             (initial served)) <> inl (Error wrong_file))
  /\ (@parseScore (reference served) (with_hash "" replay_request) (initial served)
      = @parseScore (reference served) (delete "hash" (with_hash "" replay_request))
          (initial served)
      /\ fst (@parseScore (reference served) (with_hash "" replay_request)
                (initial served)) <> inl (Error wrong_file)).
Proof.
  split.
  - apply (proj1 (empty_hash_skips_validation (C := reference served)
                    (with_hash "" by_id_request) (initial served) eq_refl)).
  - apply (proj2 (empty_hash_skips_validation (C := reference served)
                    (with_hash "" replay_request) (initial served) eq_refl)).
Defined.

Lemma beatmap_download_failed_witness :
  @parseBeatmapById (reference no_payload) (VNum (Int 1234567)) VUndefined VUndefined
     (initial no_payload)
  = (inl (Error (beatmap_id_download_failed (VNum (Int 1234567)) "OK")),
     logged (initial no_payload) ∅
       [Download VUndefined (id_config (VNum (Int 1234567)) VUndefined)])
  /\ @parseCustomBeatmap (reference no_payload) (VStr "https://x/map.osu")
       VUndefined VUndefined (initial no_payload)
     = (inl (Error (beatmap_url_download_failed (VStr "https://x/map.osu") "OK")),
        logged (initial no_payload) ∅
          [Download VUndefined (url_config (VStr "https://x/map.osu") VUndefined)]).
Proof.
  split.
  - apply (proj1 (beatmap_download_failed (C := reference no_payload)
                    VUndefined VUndefined (initial no_payload) (answer no_payload)
                    (or_intror (conj eq_refl eq_refl)))
             (VNum (Int 1234567)) ∅).
    reflexivity.
  - apply (proj2 (beatmap_download_failed (C := reference no_payload)
                    VUndefined VUndefined (initial no_payload) (answer no_payload)
                    (or_intror (conj eq_refl eq_refl)))
             (VStr "https://x/map.osu") ∅).
    reflexivity.
Defined.

(** C4 as the specification words it fails when a save path is in force: the
    downloader reports success, persisted no file and handed over no buffer;
    the guard lets the answer through, the file is read at no path, and the
    call fails with what [readFileSync] threw, not with the download error. *)
Lemma success_without_file_or_buffer_is_read :
  isSuccessful (answer no_payload) = true
  /\ buffer (answer no_payload) = None
  /\ filePath (answer no_payload) = None
  /\ truthy (get save_request "savePath") = true
  /\ @parseBeatmap (reference no_payload) save_request (initial no_payload)
     = (inl (@Rethrown (reference no_payload) "ERR_INVALID_ARG_TYPE"),
        after no_payload
          [Download (VStr "./cache/1234567.osu")
             (id_config (VNum (Int 1234567)) (VStr "./cache/1234567.osu"));
           ReadFile None])
  /\ @parseBeatmapById (reference no_payload) (VNum (Int 1234567)) VUndefined
       (VStr "./cache/1234567.osu") (initial no_payload)
     <> (inl (Error (beatmap_id_download_failed (VNum (Int 1234567)) "OK")),
         after no_payload
           [Download (VStr "./cache/1234567.osu")
              (id_config (VNum (Int 1234567)) (VStr "./cache/1234567.osu"))]).
Proof. repeat split; try reflexivity. discriminate. Qed.

Lemma hash_of_text_versus_hash_of_bytes_witness :
  (exists rest,
     trace (snd (@parseBeatmap (reference served) by_id_request (initial served)))
     = trace (after served
                [Download VUndefined (id_config (VNum (Int 1234567)) VUndefined)])
       ++ Md5 (OfString (@toString (reference served) osu_file)) :: rest
     /\ never is_md5 rest
     /\ forall r st',
          @parseBeatmap (reference served) by_id_request (initial served)
          = (inr r, st') ->
          ParsingResult.hash r
          = @md5 (reference served) (OfString (@toString (reference served) osu_file)))
  /\ (exists rest,
        trace (snd (@parseScore (reference served) replay_request (initial served)))
        = trace (after served
                   [Download (VStr "") (replay_config (VStr "https://x/replay.osr"))])
          ++ Md5 (OfBuffer osu_file) :: rest
        /\ never is_md5 rest
        /\ forall r st',
             @parseScore (reference served) replay_request (initial served)
             = (inr r, st') ->
             ParsingResult.hash r = @md5 (reference served) (OfBuffer osu_file)).
Proof.
  split.
  - apply (proj1 (hash_of_text_versus_hash_of_bytes (C := reference served)
                    by_id_request (initial served))
             osu_file
             (after served
                [Download VUndefined (id_config (VNum (Int 1234567)) VUndefined)])).
    reflexivity.
  - apply (proj2 (hash_of_text_versus_hash_of_bytes (C := reference served)
                    replay_request (initial served))
             osu_file
             (after served
                [Download (VStr "") (replay_config (VStr "https://x/replay.osr"))])).
    reflexivity.
Defined.

Lemma beatmapId_backfill_witness :
  (exists data st1 decoded,
    @acquireBeatmap (reference served) string_id_request (initial served)
    = (inr data, st1)
    /\ @decodeFromString (reference served) (@toString (reference served) data)
         false (world st1)
       = (inr decoded, ∅)
    /\ (@by_identifier string_id_request = true ->
        truthy (beatmapId decoded) = false ->
        decoded_file (VNum (Int 1234567))
        = {| beatmapId := VNum (parseInt (get string_id_request "beatmapId"));
             beatmap_rest := beatmap_rest decoded |}
        /\ forall z,
             Z.abs z <= 9007199254740991 ->
             get string_id_request "beatmapId" = VNum (Int z)
             \/ get string_id_request "beatmapId" = VStr (pretty z) ->
             beatmapId (decoded_file (VNum (Int 1234567))) = VNum (Int z))
    /\ (@by_identifier string_id_request = true ->
        truthy (beatmapId decoded) = true ->
        decoded_file (VNum (Int 1234567)) = decoded)
    /\ (@by_identifier string_id_request = false ->
        decoded_file (VNum (Int 1234567)) = decoded))
  /\ (exists data st1 decoded,
    @acquireBeatmap (reference served) by_id_request (initial served)
    = (inr data, st1)
    /\ @decodeFromString (reference served) (@toString (reference served) data)
         false (world st1)
       = (inr decoded, ∅)
    /\ (@by_identifier by_id_request = true ->
        truthy (beatmapId decoded) = false ->
        decoded_file (VNum (Int 1234567))
        = {| beatmapId := VNum (parseInt (get by_id_request "beatmapId"));
             beatmap_rest := beatmap_rest decoded |}
        /\ forall z,
             Z.abs z <= 9007199254740991 ->
             get by_id_request "beatmapId" = VNum (Int z)
             \/ get by_id_request "beatmapId" = VStr (pretty z) ->
             beatmapId (decoded_file (VNum (Int 1234567))) = VNum (Int z))
    /\ (@by_identifier by_id_request = true ->
        truthy (beatmapId decoded) = true ->
        decoded_file (VNum (Int 1234567)) = decoded)
    /\ (@by_identifier by_id_request = false ->
        decoded_file (VNum (Int 1234567)) = decoded)).
Proof.
  split.
  - apply (beatmapId_backfill (C := reference served) string_id_request
             (initial served)
             (after served
                [Download VUndefined (id_config (VStr "1234567") VUndefined);
                 Md5 (OfString "osu file format v14");
                 DecodeBeatmap "osu file format v14" false])
             {| ParsingResult.data := decoded_file (VNum (Int 1234567));
                ParsingResult.hash := osu_file_md5 |}).
    reflexivity.
  - apply (beatmapId_backfill (C := reference served) by_id_request
             (initial served)
             (after served
                [Download VUndefined (id_config (VNum (Int 1234567)) VUndefined);
                 Md5 (OfString "osu file format v14");
                 DecodeBeatmap "osu file format v14" false])
             {| ParsingResult.data := decoded_file (VNum (Int 1234567));
                ParsingResult.hash := osu_file_md5 |}).
    reflexivity.
Defined.

(** C8 as the specification words it fails: with both a beatmap identifier
    and a file URL the call is not refused; it downloads by identifier,
    decodes and succeeds. *)
Lemma both_modes_downloads_by_identifier :
  typeof (get both_modes_request "beatmapId") = "number"
  /\ typeof (get both_modes_request "fileURL") = "string"
  /\ @parseBeatmap (reference served) both_modes_request (initial served)
     = (inr {| ParsingResult.data := decoded_file (VNum (Int 1234567));
               ParsingResult.hash := osu_file_md5 |},
        after served
          [Download VUndefined (id_config (VNum (Int 1234567)) VUndefined);
           Md5 (OfString "osu file format v14");
           DecodeBeatmap "osu file format v14" false]).
Proof. repeat split; reflexivity. Qed.

Lemma identifier_takes_precedence_witness :
  @parseBeatmap (reference served) both_modes_request (initial served)
  = @parseBeatmap (reference served) (delete "fileURL" both_modes_request)
      (initial served)
  /\ exists rest,
       trace (snd (@parseBeatmap (reference served) both_modes_request
                     (initial served)))
       = trace (initial served)
         ++ Download (get both_modes_request "savePath")
              (id_config (get both_modes_request "beatmapId")
                         (get both_modes_request "savePath"))
            :: rest
       /\ never is_download rest.
Proof.
  apply (identifier_takes_precedence (C := reference served) both_modes_request
           (initial served)); reflexivity.
Defined.

Lemma beatmap_download_error_names_source_and_status_witness :
  (exists message,
     fst (@parseBeatmapById (reference not_found) (VNum (Int 1234567)) VUndefined
            VUndefined (initial not_found)) = inl (Error message)
     /\ carries message (ToString (VNum (Int 1234567))) = true
     /\ carries message (statusText (answer not_found)) = true)
  /\ (exists message,
        fst (@parseCustomBeatmap (reference not_found) (VStr "https://x/map.osu")
               VUndefined VUndefined (initial not_found)) = inl (Error message)
        /\ carries message (ToString (VStr "https://x/map.osu")) = true
        /\ carries message (statusText (answer not_found)) = true).
Proof.
  split.
  - apply (proj1 (beatmap_download_error_names_source_and_status
                    (C := reference not_found) VUndefined VUndefined
                    (initial not_found) (answer not_found) (or_introl eq_refl))
             (VNum (Int 1234567)) ∅).
    reflexivity.
  - apply (proj2 (beatmap_download_error_names_source_and_status
                    (C := reference not_found) VUndefined VUndefined
                    (initial not_found) (answer not_found) (or_introl eq_refl))
             (VStr "https://x/map.osu") ∅).
    reflexivity.
Defined.

Lemma outcome_is_the_decoders_witness :
  @parseBeatmap (reference served) by_id_request (initial served)
  = (inr {| ParsingResult.data := decoded_file (VNum (Int 1234567));
            ParsingResult.hash := osu_file_md5 |},
     after served
       [Download VUndefined (id_config (VNum (Int 1234567)) VUndefined);
        Md5 (OfString "osu file format v14");
        DecodeBeatmap "osu file format v14" false])
  /\ @parseScore (reference served) (with_hash osu_file_md5 replay_request)
       (initial served)
     = (inr {| ParsingResult.data := osu_file; ParsingResult.hash := osu_file_md5 |},
        after served
          [Download (VStr "") (replay_config (VStr "https://x/replay.osr"));
           Md5 (OfBuffer osu_file);
           DecodeScore osu_file false]).
Proof.
  split.
  - rewrite (proj1 (outcome_is_the_decoders (C := reference served)
                      by_id_request (initial served))
               osu_file acquired_by_id eq_refl (or_introl eq_refl)).
    reflexivity.
  - rewrite (proj2 (outcome_is_the_decoders (C := reference served)
                      (with_hash osu_file_md5 replay_request) (initial served))
               osu_file acquired_replay eq_refl (or_intror eq_refl)).
    reflexivity.
Defined.

Lemma hash_mismatch_has_one_cause_witness :
  exists data st1,
    @acquireBeatmap (reference served) (with_hash "deadbeef" by_id_request)
       (initial served) = (inr data, st1)
    /\ truthy (get (with_hash "deadbeef" by_id_request) "hash") = true
    /\ get (with_hash "deadbeef" by_id_request) "hash"
       <> VStr (@md5 (reference served) (OfString (@toString (reference served) data)))
    /\ after served
         [Download VUndefined (id_config (VNum (Int 1234567)) VUndefined);
          Md5 (OfString "osu file format v14")]
       = logged st1 (world st1) [Md5 (OfString (@toString (reference served) data))].
Proof.
  apply (proj1 (hash_mismatch_has_one_cause (C := reference served)
                  (with_hash "deadbeef" by_id_request) (initial served)
                  (after served
                     [Download VUndefined (id_config (VNum (Int 1234567)) VUndefined);
                      Md5 (OfString "osu file format v14")]))).
  reflexivity.
Defined.

Lemma persisted_file_is_what_is_decoded_witness :
  @acquireBeatmap (reference saved) save_request (initial saved)
  = (inr osu_file,
     logged (initial saved) saved_files
       [Download (get save_request "savePath") (source_config save_request);
        ReadFile (filePath (answer saved))]).
Proof.
  apply (proj1 (persisted_file_is_what_is_decoded (C := reference saved)
                  save_request (initial saved) (answer saved) saved_files
                  eq_refl eq_refl eq_refl eq_refl)
           osu_file saved_files).
  reflexivity.
Defined.

Lemma empty_save_path_saves_and_uses_the_buffer_witness :
  cfg_save (source_config (<["savePath" := VStr ""]> by_id_request)) = true
  /\ @acquireBeatmap (reference served) (<["savePath" := VStr ""]> by_id_request)
       (initial served)
     = (match isSuccessful (answer served), buffer (answer served) with
        | true, Some b => inr b
        | _, _ =>
            inl (Error (download_failed_message
                          (<["savePath" := VStr ""]> by_id_request)
                          (statusText (answer served))))
        end,
        logged (initial served) ∅
          [Download (VStr "")
             (source_config (<["savePath" := VStr ""]> by_id_request))]).
Proof.
  apply (empty_save_path_saves_and_uses_the_buffer (C := reference served)
           (<["savePath" := VStr ""]> by_id_request) (initial served)
           (answer served) ∅);
    reflexivity.
Defined.

Lemma own_errors_precede_decoding_witness :
  (wrong_file = no_beatmap_source
   \/ wrong_file = wrong_file
   \/ exists status,
        wrong_file
        = download_failed_message (with_hash "deadbeef" by_id_request) status)
  /\ exists evs,
       [Download VUndefined (id_config (VNum (Int 1234567)) VUndefined);
        Md5 (OfString "osu file format v14")]
       = trace (initial served) ++ evs
       /\ never is_decode evs.
Proof.
  apply (proj1 (own_errors_precede_decoding (C := reference served)
                  (with_hash "deadbeef" by_id_request) (initial served))
           wrong_file
           (after served
              [Download VUndefined (id_config (VNum (Int 1234567)) VUndefined);
               Md5 (OfString "osu file format v14")])).
  reflexivity.
Defined.

Lemma parseScore_never_persists_witness :
  @parseScore (reference served)
     (<["savePath" := VStr "./cache"]> replay_request) (initial served)
  = @parseScore (reference served) replay_request (initial served).
Proof.
  apply (proj1 (parseScore_never_persists (C := reference served)
                  replay_request (initial served)));
    discriminate.
Defined.

Lemma integer_identifier_is_backfilled_as_itself_witness :
  exists data st1 decoded,
    @acquireBeatmap (reference served) by_id_request (initial served)
    = (inr data, st1)
    /\ @decodeFromString (reference served) (@toString (reference served) data)
         false (world st1)
       = (inr decoded, ∅)
    /\ decoded_file (VNum (Int 1234567))
       = backfill_beatmapId decoded (VNum (Int 1234567)).
Proof.
  apply (integer_identifier_is_backfilled_as_itself (C := reference served)
           1234567 by_id_request (initial served)
           (after served
              [Download VUndefined (id_config (VNum (Int 1234567)) VUndefined);
               Md5 (OfString "osu file format v14");
               DecodeBeatmap "osu file format v14" false])
           {| ParsingResult.data := decoded_file (VNum (Int 1234567));
              ParsingResult.hash := osu_file_md5 |});
    [vm_compute; discriminate | left; reflexivity | reflexivity].
Defined.

Lemma download_exception_is_passed_on_witness :
  @parseBeatmap offline by_id_request offline_initial
  = (inl (@Rethrown offline "ECONNREFUSED"),
     logged offline_initial ∅
       [Download (get by_id_request "savePath") (source_config by_id_request)])
  /\ @parseScore offline replay_request offline_initial
     = (inl (@Rethrown offline "ECONNREFUSED"),
        logged offline_initial ∅
          [Download (VStr "") (replay_config (get replay_request "fileURL"))]).
Proof.
  split.
  - apply (proj1 (download_exception_is_passed_on (C := offline)
                    by_id_request offline_initial "ECONNREFUSED" ∅));
      reflexivity.
  - apply (proj2 (download_exception_is_passed_on (C := offline)
                    replay_request offline_initial "ECONNREFUSED" ∅));
      reflexivity.
Defined.

Lemma beatmap_download_request_witness :
  (exists rest,
     trace (snd (@parseBeatmap (reference served) save_request (initial served)))
     = trace (initial served)
       ++ Download (get save_request "savePath") (source_config save_request) :: rest
     /\ never is_download rest)
  /\ (cfg_save (source_config save_request) = true
      <-> typeof (get save_request "savePath") = "string")
  /\ (if by_identifier save_request
      then cfg_id (source_config save_request) = get save_request "beatmapId"
           /\ (typeof (get save_request "beatmapId") = "string"
               \/ typeof (get save_request "beatmapId") = "number")
           /\ cfg_url (source_config save_request) = VUndefined
      else cfg_url (source_config save_request) = get save_request "fileURL"
           /\ typeof (get save_request "fileURL") = "string"
           /\ cfg_id (source_config save_request) = VUndefined).
Proof.
  apply (beatmap_download_request (C := reference served) save_request
           (initial served)).
  reflexivity.
Defined.
